(** * Accessibility checker: rule evaluation and report aggregation

    A shallow embedding of the checkers of [app.py]
    ([check_alt_text], [check_font_sizes], [check_color_contrast]) and of
    the aggregating part of [analyze_accessibility], with the properties
    that the specification states about them.

    Conventions of the embedding.
    - A Python [str] is a [string] whose characters are the code points
      0..255; [lower], [strip] and the regular-expression classes [\s]
      and [\d] are those of Python 3 on that range.
    - A parsed document is a tree of [node]s: a [Tag] with its name, its
      attribute dictionary and its contents, or a [NavigableString].
      The checkers only read it, with [find_all], [get] and [get_text].
    - A Python [float] is a binary64 number, here a [spec_float] with
      precision 53 and maximal exponent 1024, rounded to nearest even.
    - A [for] loop that appends to a list is a [fold_left] over the
      sequence it iterates, with the mutated variables as its state.
    - An f-string is kept as its template with the values it
      interpolates where it formats a [float] or belongs to the report;
      the labels of the issues are built as texts.
    - [list(set(xs))] lists the elements of [xs] once each in an order
      that the program does not fix; the order is a parameter. *)

From Stdlib Require Import ZArith NArith Ascii String List Bool Lia.
From Stdlib Require Import DecimalString SpecFloat Permutation.
From stdpp Require Import base option list gmap strings.

Set Warnings "-register-all".

Local Open Scope string_scope.
Local Open Scope list_scope.

(** ** Characters and strings *)

Module Str.

(** [c.isspace()], which is also the class [\s] of [re] on [str]. *)
Definition isspace (c : ascii) : bool :=
  let n := N_of_ascii c in
  ((9 <=? n) && (n <=? 13) || (28 <=? n) && (n <=? 32)
   || (n =? 133) || (n =? 160))%N.

(** The class [\d] of [re]: the only decimal digits below 256 are 0-9. *)
Definition isdigit (c : ascii) : bool :=
  let n := N_of_ascii c in ((48 <=? n) && (n <=? 57))%N.

(** [c.lower()]: A-Z and the capital letters of the range 192..222
    (without the multiplication sign 215) move up by 32. *)
Definition lower_char (c : ascii) : ascii :=
  let n := N_of_ascii c in
  if ((65 <=? n) && (n <=? 90)
      || (192 <=? n) && (n <=? 222) && negb (n =? 215))%N
  then ascii_of_N (n + 32) else c.

Fixpoint lower (s : string) : string :=
  match s with
  | EmptyString => EmptyString
  | String c s' => String (lower_char c) (lower s')
  end.

Fixpoint lstrip (s : string) : string :=
  match s with
  | EmptyString => EmptyString
  | String c s' => if isspace c then lstrip s' else s
  end.

Fixpoint rstrip (s : string) : string :=
  match s with
  | EmptyString => EmptyString
  | String c s' =>
      match rstrip s' with
      | EmptyString => if isspace c then EmptyString else String c EmptyString
      | r => String c r
      end
  end.

(** [s.strip()] *)
Definition strip (s : string) : string := rstrip (lstrip s).

(** [sub in s] *)
Fixpoint contains (sub s : string) : bool :=
  String.prefix sub s ||
  match s with
  | EmptyString => false
  | String _ s' => contains sub s'
  end.

(** [x in xs] for a list of strings *)
Definition mem (x : string) (xs : list string) : bool :=
  existsb (String.eqb x) xs.

(** [str(n)] for a non-negative [int] *)
Definition of_nat (n : nat) : string :=
  NilEmpty.string_of_uint (Nat.to_uint n).

(** [len(s)] *)
Definition len (s : string) : nat := String.length s.

(** [''.join(xs)] *)
Definition join (xs : list string) : string :=
  fold_right String.append EmptyString xs.

End Str.

(** ** Floating-point numbers *)

Module Float.

Definition prec : Z := 53.
Definition emax : Z := 1024.

(** [x * y], [x / y] and [x < y] on binary64 numbers *)
Definition mul (x y : spec_float) : spec_float := SFmul prec emax x y.
Definition div (x y : spec_float) : spec_float := SFdiv prec emax x y.
Definition ltb (x y : spec_float) : bool := SFltb x y.

(** The conversion of an [int] operand to [float]. *)
Definition of_int (n : Z) : spec_float := binary_normalize prec emax n 0 false.

(** The binary64 number nearest to [n / d], ties to even, for [0 <= n]
    and [0 < d].  The quotient is computed with more than a thousand
    binary digits after the leading one, and a last digit that records
    whether anything was cut off; rounding that number once gives the
    same result as rounding the exact quotient. *)
Definition of_ratio (n d : Z) : spec_float :=
  let s := (1100 + Z.log2_up d)%Z in
  let q := (n * 2 ^ s / d)%Z in
  let r := ((n * 2 ^ s) mod d)%Z in
  let sticky := if (r =? 0)%Z then 0%Z else 1%Z in
  binary_normalize prec emax (2 * q + sticky) (- (s + 1)) false.

(** The number written by a run of decimal digits, after [acc]. *)
Fixpoint digits (s : string) (acc : Z) : Z :=
  match s with
  | EmptyString => acc
  | String c s' => digits s' (10 * acc + (Z.of_N (N_of_ascii c) - 48))%Z
  end.

(** The parts of a text [digits] or [digits.digits] around the point. *)
Fixpoint split_point (s : string) : string * string :=
  match s with
  | EmptyString => (EmptyString, EmptyString)
  | String c s' =>
      if Ascii.eqb c "."%char then (EmptyString, s')
      else let '(a, b) := split_point s' in (String c a, b)
  end.

(** [float(s)] for a text [s] that matches [\d+(?:\.\d+)?], and the value
    of a literal such as [1.33]. *)
Definition of_decimal (s : string) : spec_float :=
  let '(ip, fp) := split_point s in
  of_ratio (digits fp (digits ip 0)) (10 ^ Z.of_nat (String.length fp)).

End Float.

(** ** Regular expressions *)

(** The three patterns of the program are matched by hand.  Each of them
    is a literal followed by greedy repetitions of character classes;
    where giving back characters of a repetition can turn a failure into
    a match, the function says so. *)
Module Re.

(** A literal of a pattern compiled with [re.IGNORECASE], at the start of
    [s]: the text it matches and the rest of [s].  The literals of the
    program are in lower case. *)
Fixpoint literal (lit s : string) : option (string * string) :=
  match lit with
  | EmptyString => Some (EmptyString, s)
  | String a lit' =>
      match s with
      | EmptyString => None
      | String c s' =>
          if Ascii.eqb (Str.lower_char c) a then
            match literal lit' s' with
            | Some (m, rest) => Some (String c m, rest)
            | None => None
            end
          else None
      end
  end.

(** The longest prefix of [s] in a character class, and the rest. *)
Fixpoint span (p : ascii -> bool) (s : string) : string * string :=
  match s with
  | EmptyString => (EmptyString, EmptyString)
  | String c s' =>
      if p c then let '(a, b) := span p s' in (String c a, b)
      else (EmptyString, s)
  end.

(** An alternation of literals, tried in the order of the pattern. *)
Fixpoint alternation (lits : list string) (s : string)
  : option (string * string) :=
  match lits with
  | [] => None
  | l :: lits' =>
      match literal l s with
      | Some r => Some r
      | None => alternation lits' s
      end
  end.

(** [re.search]: the match at the leftmost position that has one. *)
Fixpoint search {A : Type} (at_start : string -> option A) (s : string)
  : option A :=
  match at_start s with
  | Some r => Some r
  | None =>
      match s with
      | EmptyString => None
      | String _ s' => search at_start s'
      end
  end.

(** [font-size:\s*(\d+(?:\.\d+)?)(px|pt|em|rem|%)] at the start of [s]:
    groups 1 and 2.  No class overlaps with what follows it (a space is
    no digit, and neither a digit nor a point starts a unit), so a
    repetition that gives characters back cannot match where the greedy
    one fails. *)
Definition font_size_at (s : string) : option (string * string) :=
  match literal "font-size:" s with
  | None => None
  | Some (_, r0) =>
      let '(_, r1) := span Str.isspace r0 in
      let '(ip, r2) := span Str.isdigit r1 in
      if String.eqb ip EmptyString then None else
      let '(num, r3) :=
        match r2 with
        | String "."%char r2' =>
            let '(fp, r3) := span Str.isdigit r2' in
            if String.eqb fp EmptyString then (ip, r2)
            else (ip +:+ "." +:+ fp, r3)
        | _ => (ip, r2)
        end in
      match alternation ["px"; "pt"; "em"; "rem"; "%"] r3 with
      | Some (unit, _) => Some (num, unit)
      | None => None
      end
  end.

Definition last_char (s : string) : option ascii :=
  match String.length s with
  | O => None
  | S n => String.get n s
  end.

(** A declaration [lit\s*([^;]+)] at the start of [s]: group 1.  When
    nothing but spaces stands before the semicolon or the end, [\s*]
    gives its last space back and the group is that space. *)
Definition declaration_at (lit s : string) : option string :=
  match literal lit s with
  | None => None
  | Some (_, r0) =>
      let '(ws, r1) := span Str.isspace r0 in
      let '(v, _) := span (fun c => negb (Ascii.eqb c ";"%char)) r1 in
      if negb (String.eqb v EmptyString) then Some v
      else match last_char ws with
           | Some c => Some (String c EmptyString)
           | None => None
           end
  end.

(** [re.search(r'color:\s*([^;]+)', style, re.IGNORECASE)] *)
Definition search_color (style : string) : option string :=
  search (declaration_at "color:") style.

(** [re.search(r'background-color:\s*([^;]+)', style, re.IGNORECASE)] *)
Definition search_background_color (style : string) : option string :=
  search (declaration_at "background-color:") style.

(** [re.search(r'font-size:...', style, re.IGNORECASE)] *)
Definition search_font_size (style : string) : option (string * string) :=
  search font_size_at style.

End Re.

(** ** The document tree *)

(** The leaves of a tree are the strings that the parser holds as
    [NavigableString].  Comments, and the strings inside [script],
    [style], [template], [rt] and [rp] elements, which [get_text] leaves
    out of the text of the elements around them, are not part of the
    tree. *)
Inductive node : Type :=
| NavigableString (text : string)
| Tag (name : string) (attrs : gmap string string) (contents : list node).

Module Soup.

(** [n.descendants]: every node below [n], in document order. *)
Fixpoint descendants (n : node) : list node :=
  match n with
  | NavigableString _ => []
  | Tag _ _ cs => List.flat_map (fun c => c :: descendants c) cs
  end.

Definition is_tag (n : node) : bool :=
  match n with Tag _ _ _ => true | NavigableString _ => false end.

(** [tag.name] *)
Definition name (n : node) : string :=
  match n with Tag nm _ _ => nm | NavigableString _ => EmptyString end.

(** [tag.get(key)], [None] when the attribute is absent *)
Definition get (n : node) (key : string) : option string :=
  match n with Tag _ a _ => a !! key | NavigableString _ => None end.

(** [soup.find_all(...)]: the tags below [soup] that satisfy the filter,
    in document order. *)
Definition find_all (p : node -> bool) (soup : node) : list node :=
  List.filter (fun n => is_tag n && p n) (descendants soup).

(** The filter of [find_all('img')] and of [find_all([...])] *)
Definition named (names : list string) (n : node) : bool :=
  Str.mem (name n) names.

(** The filter of [find_all(style=True)] *)
Definition has_style (n : node) : bool :=
  match get n "style" with Some _ => true | None => false end.

(** [tag.get_text(strip=True)] for an element other than [script],
    [style], [template], [rt] and [rp], as are the six text elements
    that the program reads: the strings below the tag, each one
    stripped, the empty ones dropped, joined without a separator. *)
Definition get_text_strip (n : node) : string :=
  Str.join
    (List.flat_map
       (fun d => match d with
                 | NavigableString s =>
                     let s' := Str.strip s in
                     if String.eqb s' EmptyString then [] else [s']
                 | Tag _ _ _ => []
                 end)
       (descendants n)).

End Soup.

(** [enumerate(xs, start)] *)
Fixpoint enumerate {A : Type} (xs : list A) (start : nat) : list (nat * A) :=
  match xs with
  | [] => []
  | x :: xs' => (start, x) :: enumerate xs' (S start)
  end.

(** ** Issues *)

(** The [description] of an issue is an f-string; it is kept as its
    template with the values it interpolates. *)
Inductive descr : Type :=
| NoAltAttribute (src : string)
    (* Image with src=[src] has no alt attribute *)
| EmptyAltText (src : string)
    (* Image with src=[src] has empty alt text (okay if decorative) *)
| GenericAltText (alt : string)
    (* Alt text [alt] is too generic and not descriptive *)
| SmallFontSize (size_value : spec_float) (unit : string)
                (pixel_size : spec_float)
    (* Font size [size_value][unit] (about [pixel_size:.1f]px) may be too
       small for readability *)
| LongTextBlocks (long_paragraphs : nat)
    (* Found [long_paragraphs] very long text blocks that may hurt
       readability *)
| InsufficientContrast (text_color bg_color : string)
    (* Text color [text_color] on background [bg_color] may have
       insufficient contrast *)
| HeavyRelianceOnColor.
    (* Heavy reliance on color - ensure information is also conveyed
       through other means *)

Record issue : Type := Issue {
  type : string;
  element : string;
  description : descr;
  severity : string;
  wcag : string
}.

(** ** [check_alt_text] *)

Definition generic_alts : list string := ["image"; "picture"; "photo"; "img"].

Definition alt_suggestions : list string :=
  [ "Write descriptive alt text that conveys the meaning and context of images";
    "Use empty alt='' for purely decorative images";
    "Avoid generic terms like 'image', 'picture', or 'photo'";
    "Keep alt text concise but meaningful (aim for 125 characters or less)" ].

Definition no_images_suggestion : string :=
  "Consider adding relevant images with proper alt text to enhance content.".

(** The body of the loop over the images: [issues] after the iteration
    for image number [i]. *)
Definition alt_step (issues : list issue) (it : nat * node) : list issue :=
  let '(i, img) := it in
  let alt := Soup.get img "alt" in
  let src := default "Unknown source" (Soup.get img "src") in
  match alt with
  | None =>
      issues ++ [ Issue "Missing Alt Attribute" ("Image " +:+ Str.of_nat i)
                        (NoAltAttribute src) "High"
                        "WCAG 2.1 Level A - 1.1.1" ]
  | Some alt =>
      if String.eqb (Str.strip alt) EmptyString then
        issues ++ [ Issue "Empty Alt Text" ("Image " +:+ Str.of_nat i)
                          (EmptyAltText src) "Medium"
                          "WCAG 2.1 Level A - 1.1.1" ]
      else if Str.mem (Str.lower (Str.strip alt)) generic_alts then
        issues ++ [ Issue "Generic Alt Text" ("Image " +:+ Str.of_nat i)
                          (GenericAltText alt) "Medium"
                          "WCAG 2.1 Level A - 1.1.1" ]
      else issues
  end.

Definition check_alt_text (soup : node) : list issue * list string :=
  let images := Soup.find_all (Soup.named ["img"]) soup in
  match images with
  | [] => ([], [no_images_suggestion])
  | _ =>
      let issues := fold_left alt_step (enumerate images 1) [] in
      let suggestions :=
        match issues with [] => [] | _ => [] ++ alt_suggestions end in
      (issues, suggestions)
  end.

(** ** [check_font_sizes] *)

Definition small_font_suggestions : list string :=
  [ "Use minimum 12px font size for body text (14px+ recommended)";
    "Ensure text can be zoomed to 200% without loss of functionality";
    "Test readability on different devices and screen sizes" ].

Definition long_text_suggestion : string :=
  "Break up long text blocks with headings, bullet points, or shorter paragraphs".

(** The conversion to approximate pixels: the chain of tests on [unit];
    [None] is its last branch, which goes on with the next element. *)
Definition pixel_size_of (size_value : spec_float) (unit : string)
  : option spec_float :=
  if String.eqb unit "px" then Some size_value
  else if String.eqb unit "pt" then
    Some (Float.mul size_value (Float.of_decimal "1.33"))
  else if Str.mem unit ["em"; "rem"] then
    Some (Float.mul size_value (Float.of_int 16))
  else if String.eqb unit "%" then
    Some (Float.mul (Float.div size_value (Float.of_int 100)) (Float.of_int 16))
  else None.

(** The body of the loop over the styled elements; the state is
    [(issues, small_fonts_found)]. *)
Definition font_step (st : list issue * bool) (it : nat * node)
  : list issue * bool :=
  let '(issues, small_fonts_found) := st in
  let '(i, element) := it in
  let style := default "" (Soup.get element "style") in
  match Re.search_font_size style with
  | Some (group1, group2) =>
      let size_value := Float.of_decimal group1 in
      let unit := Str.lower group2 in
      match pixel_size_of size_value unit with
      | Some pixel_size =>
          if Float.ltb pixel_size (Float.of_int 12) then
            (issues ++
               [ Issue "Small Font Size"
                   ("Element " +:+ Str.of_nat i +:+ " (" +:+ Soup.name element +:+ ")")
                   (SmallFontSize size_value unit pixel_size)
                   "Medium" "WCAG 2.1 Level AA - 1.4.4" ],
             true)
          else st
      | None => st
      end
  | None => st
  end.

Definition text_kinds : list string := ["p"; "div"; "span"; "li"; "td"; "th"].

(** The body of the loop that counts the long text blocks. *)
Definition long_step (long_paragraphs : nat) (element : node) : nat :=
  let text := Soup.get_text_strip element in
  if (500 <? Str.len text)%nat then long_paragraphs + 1 else long_paragraphs.

Definition check_font_sizes (soup : node) : list issue * list string :=
  let elements_with_styles := Soup.find_all Soup.has_style soup in
  let '(issues, small_fonts_found) :=
    fold_left font_step (enumerate elements_with_styles 1) ([], false) in
  let text_elements := Soup.find_all (Soup.named text_kinds) soup in
  let long_paragraphs := fold_left long_step text_elements 0 in
  let issues :=
    if (0 <? long_paragraphs)%nat then
      issues ++
        [ Issue "Long Text Blocks" (Str.of_nat long_paragraphs +:+ " elements")
            (LongTextBlocks long_paragraphs) "Low"
            "WCAG 2.1 Level AAA - 2.4.8" ]
    else issues in
  let suggestions := [] in
  let suggestions :=
    if small_fonts_found then suggestions ++ small_font_suggestions
    else suggestions in
  let suggestions :=
    if (0 <? long_paragraphs)%nat then suggestions ++ [long_text_suggestion]
    else suggestions in
  (issues, suggestions).

(** ** [check_color_contrast] *)

Definition light_colors : list string :=
  [ "white"; "#fff"; "#ffffff"; "#f0f0f0"; "#e0e0e0";
    "yellow"; "lightyellow"; "lightgray"; "lightgrey"; "beige" ].

Definition dark_colors : list string :=
  [ "black"; "#000"; "#000000"; "#333"; "#666";
    "navy"; "darkblue"; "darkgreen"; "darkred"; "purple" ].

(** [any(light in c.lower() for light in light_colors)] *)
Definition is_light (c : string) : bool :=
  existsb (fun light => Str.contains light (Str.lower c)) light_colors.

(** [any(dark in c.lower() for dark in dark_colors)] *)
Definition is_dark (c : string) : bool :=
  existsb (fun dark => Str.contains dark (Str.lower c)) dark_colors.

Definition contrast_suggestions : list string :=
  [ "Ensure text has at least 4.5:1 contrast ratio with background (7:1 for AAA compliance)";
    "Test colors using online contrast checkers";
    "Avoid using similar shades for text and background" ].

Definition color_only_suggestion : string :=
  "Don't rely solely on color to convey information - use icons, text, or patterns too".

(** The body of the loop over the styled elements; the state is
    [(issues, contrast_issues_found)]. *)
Definition contrast_step (st : list issue * bool) (it : nat * node)
  : list issue * bool :=
  let '(issues, contrast_issues_found) := st in
  let '(i, element) := it in
  let style := default "" (Soup.get element "style") in
  let color_match := Re.search_color style in
  let bg_match := Re.search_background_color style in
  match color_match, bg_match with
  | Some color_group, Some bg_group =>
      let text_color := Str.strip color_group in
      let bg_color := Str.strip bg_group in
      let text_is_light := is_light text_color in
      let text_is_dark := is_dark text_color in
      let bg_is_light := is_light bg_color in
      let bg_is_dark := is_dark bg_color in
      if (text_is_light && bg_is_light) || (text_is_dark && bg_is_dark) then
        (issues ++
           [ Issue "Poor Color Contrast"
               ("Element " +:+ Str.of_nat i +:+ " (" +:+ Soup.name element +:+ ")")
               (InsufficientContrast text_color bg_color)
               "High" "WCAG 2.1 Level AA - 1.4.3" ],
         true)
      else st
  | _, _ => st
  end.

(** The filter [lambda tag: tag.get('style') and 'color:' in
    tag.get('style', '')]: the style is not empty and contains the text
    [color:]. *)
Definition style_mentions_color (tag : node) : bool :=
  match Soup.get tag "style" with
  | Some s =>
      negb (String.eqb s EmptyString)
      && Str.contains "color:" (default "" (Soup.get tag "style"))
  | None => false
  end.

Definition check_color_contrast (soup : node) : list issue * list string :=
  let elements_with_styles := Soup.find_all Soup.has_style soup in
  let '(issues, contrast_issues_found) :=
    fold_left contrast_step (enumerate elements_with_styles 1) ([], false) in
  let elements_with_color := Soup.find_all style_mentions_color soup in
  let issues :=
    if (5 <? length elements_with_color)%nat then
      issues ++
        [ Issue "Color Dependency"
            (Str.of_nat (length elements_with_color) +:+ " elements")
            HeavyRelianceOnColor "Medium" "WCAG 2.1 Level A - 1.4.1" ]
    else issues in
  let suggestions := [] in
  let suggestions :=
    if contrast_issues_found then suggestions ++ contrast_suggestions
    else suggestions in
  let suggestions :=
    if (5 <? length elements_with_color)%nat
    then suggestions ++ [color_only_suggestion]
    else suggestions in
  (issues, suggestions).

(** ** [analyze_accessibility], from the checks on *)

(** The two values of [source_type] with which the checks are reached,
    and [source_type.replace('_', ' ').title()]. *)
Inductive source : Type := raw_html | url.

Definition source_label (s : source) : string :=
  match s with raw_html => "Raw Html" | url => "Url" end.

(** The report is text that grows by [report += ...]; it is kept as the
    sequence of the pieces added, each with the values it interpolates. *)
Inductive piece : Type :=
| GreatNews
    (* **Great news!** No major accessibility issues detected. *)
| BestPractices
    (* However, consider these general best practices: *)
| Bullet (suggestion : string)
| ReportTitle
    (* ## Accessibility Analysis Report *)
| IssuesFound (n : nat)
    (* **Issues Found:** [n] *)
| Source (label : string)
    (* **Source:** [label] *)
| HighHeading
    (* ### High Priority Issues *)
| MediumHeading
    (* ### Medium Priority Issues *)
| LowHeading
    (* ### Low Priority Issues *)
| IssueTitle (type element : string)
    (* **[type]** - [element] *)
| IssueDescription (description : descr)
| IssueStandard (wcag : string)
    (* Standard: [wcag] *)
| ActionsHeading
    (* ## Recommended Actions *)
| Action (i : nat) (suggestion : string).
    (* [i]. [suggestion] *)

(** The second component of the result. *)
Inductive status : Type :=
| CompletedSuccessfully
    (* Accessibility check completed successfully! *)
| CompletedWith (n : nat).
    (* Analysis completed! Found [n] accessibility issues. *)

(** The body of the loops over the issues of one severity. *)
Definition issue_step (report : list piece) (x : issue) : list piece :=
  let report := report ++ [IssueTitle (type x) (element x)] in
  let report := report ++ [IssueDescription (description x)] in
  report ++ [IssueStandard (wcag x)].

Definition with_severity (sev : string) (issues : list issue) : list issue :=
  List.filter (fun x => String.eqb (severity x) sev) issues.

Section Aggregator.

(** [list(set(xs))]: the order in which a set of texts is listed depends
    on their hashes; it is a parameter of the aggregator. *)
Variable list_of_set : list string -> list string.

Definition all_issues (soup : node) : list issue :=
  (check_alt_text soup).1 ++ (check_font_sizes soup).1
    ++ (check_color_contrast soup).1.

Definition all_suggestions (soup : node) : list string :=
  list_of_set ((check_alt_text soup).2 ++ (check_font_sizes soup).2
                 ++ (check_color_contrast soup).2).

Definition analyze_accessibility (soup : node) (source_type : source)
  : list piece * status * nat :=
  let all_issues := all_issues soup in
  let all_suggestions := all_suggestions soup in
  match all_issues with
  | [] =>
      let report := [GreatNews] in
      let report := report ++ [BestPractices] in
      let report :=
        fold_left (fun report suggestion => report ++ [Bullet suggestion])
                  (firstn 3 all_suggestions) report in
      (report, CompletedSuccessfully, length all_issues)
  | _ :: _ =>
      let report := [ReportTitle] in
      let report := report ++ [IssuesFound (length all_issues)] in
      let report := report ++ [Source (source_label source_type)] in
      let high_issues := with_severity "High" all_issues in
      let medium_issues := with_severity "Medium" all_issues in
      let low_issues := with_severity "Low" all_issues in
      let report :=
        match high_issues with
        | [] => report
        | _ :: _ => fold_left issue_step high_issues (report ++ [HighHeading])
        end in
      let report :=
        match medium_issues with
        | [] => report
        | _ :: _ => fold_left issue_step medium_issues (report ++ [MediumHeading])
        end in
      let report :=
        match low_issues with
        | [] => report
        | _ :: _ => fold_left issue_step low_issues (report ++ [LowHeading])
        end in
      let report :=
        match all_suggestions with
        | [] => report
        | _ :: _ =>
            fold_left (fun report '(i, suggestion) =>
                         report ++ [Action i suggestion])
                      (enumerate all_suggestions 1)
                      (report ++ [ActionsHeading])
        end in
      (report, CompletedWith (length all_issues), length all_issues)
  end.

End Aggregator.

(** ** The vocabulary of the specification *)

(** The specification names the issues by a kind and a severity level;
    the program writes both as texts. *)
Inductive kind : Type :=
| MissingAlt | EmptyAlt | GenericAlt | SmallFont | LongTextBlock
| PoorContrast | ColorDependency.

Inductive level : Type := High | Medium | Low.

Definition type_of (k : kind) : string :=
  match k with
  | MissingAlt => "Missing Alt Attribute"
  | EmptyAlt => "Empty Alt Text"
  | GenericAlt => "Generic Alt Text"
  | SmallFont => "Small Font Size"
  | LongTextBlock => "Long Text Blocks"
  | PoorContrast => "Poor Color Contrast"
  | ColorDependency => "Color Dependency"
  end.

Definition severity_of (l : level) : string :=
  match l with High => "High" | Medium => "Medium" | Low => "Low" end.

(** What the report shows of an issue besides its description. *)
Definition headline (x : issue) : string * string * string :=
  (element x, type x, severity x).

(** The rule of the specification for one image, from the value of its
    [alt] attribute. *)
Definition alt_rule (alt : option string) : option (kind * level) :=
  match alt with
  | None => Some (MissingAlt, High)
  | Some a =>
      if decide (Str.strip a = "") then Some (EmptyAlt, Medium)
      else if decide (Str.lower (Str.strip a) ∈ generic_alts)
           then Some (GenericAlt, Medium)
           else None
  end.


(** The label of a styled element in an issue. *)
Definition element_label (i : nat) (el : node) : string :=
  "Element " +:+ Str.of_nat i +:+ " (" +:+ Soup.name el +:+ ")".

(** The style text of an element, empty when it has none. *)
Definition style_of (el : node) : string := default "" (Soup.get el "style").

(** The styled elements of a document, numbered from 1. *)
Definition styled (soup : node) : list (nat * node) :=
  enumerate (Soup.find_all Soup.has_style soup) 1.

(** *** The unit normalizer of the specification *)

Inductive css_unit : Type := px | pt | em | rem | percent.

Definition unit_text (u : css_unit) : string :=
  match u with
  | px => "px" | pt => "pt" | em => "em" | rem => "rem" | percent => "%"
  end.

Definition unit_of_text (t : string) : option css_unit :=
  if String.eqb t "px" then Some px
  else if String.eqb t "pt" then Some pt
  else if String.eqb t "em" then Some em
  else if String.eqb t "rem" then Some rem
  else if String.eqb t "%" then Some percent
  else None.

Definition normalize_to_pixels (magnitude : spec_float) (u : css_unit)
  : spec_float :=
  match u with
  | px => magnitude
  | pt => Float.mul magnitude (Float.of_decimal "1.33")
  | em | rem => Float.mul magnitude (Float.of_int 16)
  | percent =>
      Float.mul (Float.div magnitude (Float.of_int 100)) (Float.of_int 16)
  end.

(** The small-font issue of styled element number [i]. *)
Definition small_font_issue (i : nat) (el : node) (magnitude : spec_float)
    (u : css_unit) : issue :=
  Issue (type_of SmallFont) (element_label i el)
        (SmallFontSize magnitude (unit_text u) (normalize_to_pixels magnitude u))
        (severity_of Medium) "WCAG 2.1 Level AA - 1.4.4".

(** The rule of the specification for one styled element: an issue when
    the declared size, in pixels, is below 12. *)
Definition small_font_rule (it : nat * node) : list issue :=
  let '(i, el) := it in
  match Re.search_font_size (style_of el) with
  | Some (m, u_text) =>
      match unit_of_text (Str.lower u_text) with
      | Some u =>
          if Float.ltb (normalize_to_pixels (Float.of_decimal m) u)
                       (Float.of_int 12)
          then [small_font_issue i el (Float.of_decimal m) u]
          else []
      | None => []
      end
  | None => []
  end.

(** The number of text elements whose stripped text is longer than 500
    characters, and the issue that names it. *)
Definition long_text_count (soup : node) : nat :=
  length (List.filter (fun el => (500 <? Str.len (Soup.get_text_strip el))%nat)
                      (Soup.find_all (Soup.named text_kinds) soup)).

Definition long_text_issue (n : nat) : issue :=
  Issue (type_of LongTextBlock) (Str.of_nat n +:+ " elements")
        (LongTextBlocks n) (severity_of Low) "WCAG 2.1 Level AAA - 2.4.8".

Definition long_text_rule (soup : node) : list issue :=
  if (1 <=? long_text_count soup)%nat
  then [long_text_issue (long_text_count soup)] else [].

(** The issues of a given kind in a list of issues. *)
Definition of_kind (k : kind) (issues : list issue) : list issue :=
  List.filter (fun x => String.eqb (type x) (type_of k)) issues.

(** *** Loops that append and raise a flag *)

Definition nonempty {B : Type} (l : list B) : bool :=
  match l with [] => false | _ :: _ => true end.

(** What one iteration appends when it starts from an empty list. *)
Definition block_of {A B : Type} (step : list B * bool -> A -> list B * bool)
    (x : A) : list B :=
  (step ([], false) x).1.

(** *** Documents of the examples *)

(** A tag with the attributes listed. *)
Definition tag_with (name : string) (attrs : list (string * string))
    (contents : list node) : node :=
  Tag name (list_to_map attrs) contents.

(** A document: the root that holds the top-level nodes. *)
Definition document (contents : list node) : node :=
  Tag "[document]" ∅ contents.

(** An element with nothing but an inline style. *)
Definition styled_element (name style : string) : node :=
  tag_with name [("style", style)] [].

(** *** Counting for the colour dependency *)

(** The style of the element contains the text [sub]. *)
Definition style_contains (sub : string) (el : node) : bool :=
  match Soup.get el "style" with
  | Some s => Str.contains sub s
  | None => false
  end.

(** The number of elements whose style contains [color:]. *)
Definition color_count (soup : node) : nat :=
  length (Soup.find_all (style_contains "color:") soup).

(** A paragraph with a font size of nine points. *)
Definition nine_points : node := styled_element "p" "font-size: 9pt".

(** A paragraph with a red text on a white background. *)
Definition red_on_white : node :=
  styled_element "p" "color: red; background-color: white".

(** Six elements that declare a background colour and nothing else. *)
Definition six_backgrounds : node :=
  document (replicate 6 (styled_element "div" "background-color: red")).

(** Four images: without [alt], with a blank one, with a generic one and
    with a descriptive one. *)
Definition four_images : node :=
  document
    [ tag_with "img" [("src", "a.png")] [];
      tag_with "img" [("src", "b.png"); ("alt", "  ")] [];
      tag_with "img" [("alt", " Photo ")] [];
      tag_with "img" [("src", "d.png"); ("alt", "A cat on a mat")] [] ].

(** A division around a paragraph of 501 characters, and a short one. *)
Definition long_texts : node :=
  document
    [ tag_with "div" []
        [ tag_with "p" [] [NavigableString (Str.join (replicate 501 "a"))];
          NavigableString "   " ];
      tag_with "p" [] [NavigableString "short"] ].

(** *** The shape of the report *)

(** The three pieces that show one issue. *)
Definition entry (x : issue) : list piece :=
  [ IssueTitle (type x) (element x);
    IssueDescription (description x);
    IssueStandard (wcag x) ].

(** A severity section: its heading and its issues in order, or nothing
    at all when it has no issue. *)
Definition severity_section (heading : piece) (xs : list issue) : list piece :=
  match xs with
  | [] => []
  | _ :: _ => heading :: List.flat_map entry xs
  end.

(** The numbered list of suggestions that ends a report. *)
Definition actions (suggestions : list string) : list piece :=
  match suggestions with
  | [] => []
  | _ :: _ =>
      ActionsHeading
        :: map (fun '(i, s) => Action i s) (enumerate suggestions 1)
  end.

(** The texts that the program uses for the severity. *)
Definition severities : list string := ["High"; "Medium"; "Low"].

(** [ys] lists the set of the elements of [xs]: each of them once, in
    some order. *)
Definition lists_set (xs ys : list string) : Prop :=
  NoDup ys /\ forall x, x ∈ ys <-> x ∈ xs.

(** The elements of [xs] in insertion order: each one where it occurs
    first. *)
Fixpoint insertion_order (xs : list string) : list string :=
  match xs with
  | [] => []
  | x :: xs' =>
      x :: List.filter (fun y => negb (String.eqb y x)) (insertion_order xs')
  end.

(** The suggestions of the three checkers, before they are made a set. *)
Definition merged_suggestions (soup : node) : list string :=
  (check_alt_text soup).2 ++ (check_font_sizes soup).2
    ++ (check_color_contrast soup).2.

(** The document of the end-to-end scenario of the specification. *)
Definition scenario : node :=
  document
    [ tag_with "html" []
        [ tag_with "body" []
            [ tag_with "h1" [("style", "color: yellow; background-color: white;")]
                [NavigableString "Welcome"];
              tag_with "img" [("src", "logo.jpg")] [];
              tag_with "p" [("style", "font-size: 8px;")]
                [NavigableString "text"];
              tag_with "div" [("style", "color: lightgray; background-color: white;")]
                [NavigableString "text"] ] ] ].


(** ** [fetch_html_content] *)

(** What [requests.get] does: it returns a response with its status
    code and its text, or it raises a [RequestException], or it raises
    an exception of another class (such as the one of the address
    parser for a host name that it refuses). *)
Inductive reply : Type :=
| Response (status_code : nat) (text : string)
| RequestException (message : string)
| OtherException (message : string).

(** A computation that may call
    [requests.get(address, headers=headers, timeout=timeout)] and goes on
    with what the call does, and that ends with a result or with an
    exception that nothing catches. *)
Inductive io (A : Type) : Type :=
| Ret (a : A)
| Get (address : string) (headers : list (string * string)) (timeout : nat)
      (k : reply -> io A)
| Raise (message : string).

Arguments Ret {A} a.
Arguments Get {A} address headers timeout k.
Arguments Raise {A} message.

Fixpoint bind {A B : Type} (m : io A) (f : A -> io B) : io B :=
  match m with
  | Ret a => f a
  | Get address headers timeout k =>
      Get address headers timeout (fun r => bind (k r) f)
  | Raise e => Raise e
  end.

(** The computation against a network that says what every call does:
    the value returned, or the message of the exception that comes out. *)
Fixpoint run {A : Type} (net : string -> list (string * string) -> nat -> reply)
    (m : io A) : A + string :=
  match m with
  | Ret a => inl a
  | Get address headers timeout k => run net (k (net address headers timeout))
  | Raise e => inr e
  end.

Definition user_agent : string :=
  "Mozilla/5.0 (Windows NT 10.0; Win64; x64) AppleWebKit/537.36".

(** [s.startswith(prefixes)] for a tuple of prefixes *)
Definition startswith_any (prefixes : list string) (s : string) : bool :=
  existsb (fun p => String.prefix p s) prefixes.

(** The result is the pair of the content, [None] on failure, and the
    source type or the error text.  Of the exceptions that the request
    can raise, the function catches [RequestException]; any other one
    comes out of it. *)
Definition fetch_html_content (input_text : string)
  : io (option string * string) :=
  let input_text := Str.strip input_text in
  if String.prefix "<" input_text && Str.contains ">" input_text then
    Ret (Some input_text, "raw_html")
  else if startswith_any ["http://"; "https://"; "www."] input_text then
    let input_text :=
      if String.prefix "www." input_text then "https://" +:+ input_text
      else input_text in
    let headers := [("User-Agent", user_agent)] in
    Get input_text headers 10
      (fun response =>
         match response with
         | Response status_code text =>
             if (status_code =? 200)%nat then Ret (Some text, "url")
             else Ret (None, "HTTP Error " +:+ Str.of_nat status_code)
         | RequestException e => Ret (None, "Request failed: " +:+ e)
         | OtherException e => Raise e
         end)
  else Ret (None, "Invalid input format").

(** ** [analyze_accessibility], from the input text *)

(** The first component of the result: a plain text, or the report of
    the checks. *)
Inductive narrative : Type :=
| Plain (text : string)
| Pieces (report : list piece).

(** The second component: a plain text, or the status of the checks. *)
Inductive notice : Type :=
| Said (text : string)
| Checked (s : status).

Module Front.
Section Front.

(** [BeautifulSoup(html_content, 'html.parser')]: the tree, or the text
    of the exception that it raises. *)
Variable parse : string -> node + string.

Variable list_of_set : list string -> list string.

(** The source type with which the checks are reached. *)
Definition source_of (source_type : string) : source :=
  if String.eqb source_type "raw_html" then raw_html else url.

Definition analyze_accessibility (input_text : string)
  : io (narrative * notice * nat) :=
  if String.eqb (Str.strip input_text) EmptyString then
    Ret (Plain "Please provide a URL or HTML content to analyze.",
         Said "Ready to analyze...", 0)
  else
    bind (fetch_html_content input_text)
      (fun '(html_content, source_type) =>
         match html_content with
         | None =>
             Ret (Plain ("Error: " +:+ source_type), Said "Error occurred", 0)
         | Some html_content =>
             match parse html_content with
             | inr e =>
                 Ret (Plain ("Error parsing HTML: " +:+ e),
                      Said "Parsing error", 0)
             | inl soup =>
                 let '(report, s, n) :=
                   analyze_accessibility list_of_set soup
                     (source_of source_type) in
                 Ret (Pieces report, Checked s, n)
             end
         end).

End Front.
End Front.

(** *** Tables and measures for the further properties *)

(** The type, the severity and the guideline of the seven issues. *)
Definition issue_table : list (string * string * string) :=
  [ ("Missing Alt Attribute", "High", "WCAG 2.1 Level A - 1.1.1");
    ("Empty Alt Text", "Medium", "WCAG 2.1 Level A - 1.1.1");
    ("Generic Alt Text", "Medium", "WCAG 2.1 Level A - 1.1.1");
    ("Small Font Size", "Medium", "WCAG 2.1 Level AA - 1.4.4");
    ("Long Text Blocks", "Low", "WCAG 2.1 Level AAA - 2.4.8");
    ("Poor Color Contrast", "High", "WCAG 2.1 Level AA - 1.4.3");
    ("Color Dependency", "Medium", "WCAG 2.1 Level A - 1.4.1") ].

(** The suggestions that go with issues. *)
Definition issue_suggestions : list string :=
  alt_suggestions ++ small_font_suggestions ++ [long_text_suggestion]
    ++ contrast_suggestions ++ [color_only_suggestion].

(** The images of a document. *)
Definition images (soup : node) : list node :=
  Soup.find_all (Soup.named ["img"]) soup.

(** The titles of issues in a report. *)
Definition is_title (p : piece) : bool :=
  match p with IssueTitle _ _ => true | _ => false end.

(** Every character of the text is in the class. *)
Fixpoint all_chars (p : ascii -> bool) (s : string) : bool :=
  match s with
  | EmptyString => true
  | String c s' => p c && all_chars p s'
  end.

(** A text is a run of decimal digits, and not empty. *)
Definition is_digits (s : string) : Prop :=
  s <> "" /\ all_chars Str.isdigit s = true.

(** The image has an [alt] text that is neither blank nor generic. *)
Definition descriptive_alt (img : node) : Prop :=
  exists a, Soup.get img "alt" = Some a
            /\ Str.strip a <> ""
            /\ ~ (Str.lower (Str.strip a) ∈ generic_alts).

(** The stripped text of an element is longer than 500 characters. *)
Definition is_long (el : node) : bool :=
  (500 <? Str.len (Soup.get_text_strip el))%nat.

(** The input, stripped, is markup: it starts with [<] and contains [>]. *)
Definition is_markup (input_text : string) : bool :=
  String.prefix "<" (Str.strip input_text)
  && Str.contains ">" (Str.strip input_text).

(** The address that is requested for an input that is no markup. *)
Definition address_of (input_text : string) : string :=
  if String.prefix "www." (Str.strip input_text)
  then "https://" +:+ Str.strip input_text
  else Str.strip input_text.

(** The input, stripped, starts like an address. *)
Definition is_address (input_text : string) : bool :=
  startswith_any ["http://"; "https://"; "www."] (Str.strip input_text).

(** A network that answers every call with the same page. *)
Definition serves (page : string)
  : string -> list (string * string) -> nat -> reply :=
  fun _ _ _ => Response 200 page.

(** A parser that knows one page. *)
Definition parses (page : string) (soup : node) : string -> node + string :=
  fun html => if String.eqb html page then inl soup else inr "unknown page".

(** A page with one image, and the tree of that page. *)
Definition image_page : string := "<img src=a.png>".

Definition image_tree : node := document [tag_with "img" [("src", "a.png")] []].

(** A paragraph of 501 characters, and a division around it. *)
Definition long_paragraph : node :=
  tag_with "p" [] [NavigableString (Str.join (replicate 501 "a"))].

Definition long_division : node := tag_with "div" [] [long_paragraph].

(** A division with a white background and no text colour. *)
Definition white_background : node :=
  styled_element "div" "background-color: white".

(** The type, the severity and the guideline of an issue. *)
Definition row (x : issue) : string * string * string :=
  (type x, severity x, wcag x).

(** The addresses requested when the computation runs against a
    network, in order. *)
Fixpoint calls {A : Type}
    (net : string -> list (string * string) -> nat -> reply) (m : io A)
  : list string :=
  match m with
  | Ret _ => []
  | Get address headers timeout k =>
      address :: calls net (k (net address headers timeout))
  | Raise _ => []
  end.

(** * Properties *)

(** ** Loops that append *)

Section AppendingLoop.
Context {A B : Type} (step : list B -> A -> list B).
Hypothesis step_app : forall acc x, step acc x = acc ++ step [] x.

Lemma fold_left_appending (xs : list A) (acc : list B) :
  fold_left step xs acc = acc ++ List.flat_map (step []) xs.
Proof.
  revert acc. induction xs as [|x xs IH]; intros acc; simpl.
  - by rewrite app_nil_r.
  - rewrite IH, (step_app acc x). by rewrite <- app_assoc.
Qed.
End AppendingLoop.

Lemma mem_true_iff (x : string) (xs : list string) :
  Str.mem x xs = true <-> x ∈ xs.
Proof.
  unfold Str.mem. rewrite existsb_exists. split.
  - intros (y & Hy & Heq). apply String.eqb_eq in Heq. subst.
    by apply list_elem_of_In.
  - intros H. exists x. split; [by apply list_elem_of_In | apply String.eqb_refl].
Qed.

Lemma alt_step_app (acc : list issue) (it : nat * node) :
  alt_step acc it = acc ++ alt_step [] it.
Proof.
  destruct it as [i img]. unfold alt_step.
  destruct (Soup.get img "alt") as [alt|]; [|done].
  destruct (String.eqb _ _); [done|].
  destruct (Str.mem _ _); [done | by rewrite app_nil_r].
Qed.

Lemma alt_step_rule (i : nat) (img : node) :
  map headline (alt_step [] (i, img)) =
  match alt_rule (Soup.get img "alt") with
  | Some (k, l) => [("Image " +:+ Str.of_nat i, type_of k, severity_of l)]
  | None => []
  end.
Proof.
  unfold alt_step, alt_rule.
  destruct (Soup.get img "alt") as [alt|]; [|done].
  destruct (String.eqb_spec (Str.strip alt) "") as [He|He].
  - by rewrite decide_True.
  - rewrite decide_False by done.
    destruct (Str.mem _ _) eqn:Hm.
    + apply mem_true_iff in Hm. by rewrite decide_True.
    + rewrite decide_False; [done|].
      intros Hin. apply mem_true_iff in Hin. congruence.
Qed.

Lemma alt_step_severity (it : nat * node) :
  Forall (fun x => severity x ∈ severities) (alt_step [] it).
Proof.
  destruct it as [i img]. unfold alt_step, severities.
  destruct (Soup.get img "alt") as [alt|];
    [|repeat constructor].
  destruct (String.eqb _ _); [repeat constructor|].
  destruct (Str.mem _ _); repeat constructor.
Qed.

(** The result of [check_alt_text], in closed form. *)
Lemma check_alt_text_eq (soup : node) :
  check_alt_text soup =
  match Soup.find_all (Soup.named ["img"]) soup with
  | [] => ([], [no_images_suggestion])
  | images =>
      (List.flat_map (alt_step []) (enumerate images 1),
       if nonempty (List.flat_map (alt_step []) (enumerate images 1))
       then alt_suggestions else [])
  end.
Proof.
  unfold check_alt_text.
  destruct (Soup.find_all _ soup) as [|img0 rest]; [done|].
  rewrite (fold_left_appending alt_step alt_step_app), app_nil_l.
  by destruct (List.flat_map _ _).
Qed.

(** C3. For the images of the document in document order, numbered from
    1, [check_alt_text] reports at most one issue per image: a missing
    [alt] attribute as Missing Alt Attribute/High, an [alt] that strips
    to the empty text as Empty Alt Text/Medium, an [alt] that strips and
    lowers to image, picture, photo or img as Generic Alt Text/Medium,
    and nothing for any other image.  A document without images gives no
    issue and exactly one suggestion. *)
Theorem check_alt_text_rule (soup : node) :
  let images := Soup.find_all (Soup.named ["img"]) soup in
  map headline (check_alt_text soup).1 =
    omap (fun '(i, img) =>
            (fun '(k, l) => ("Image " +:+ Str.of_nat i, type_of k, severity_of l))
              <$> alt_rule (Soup.get img "alt"))
         (enumerate images 1)
  /\ match images with
     | [] => check_alt_text soup = ([], [no_images_suggestion])
     | _ :: _ => True
     end.
Proof.
  intros images. rewrite check_alt_text_eq. fold images.
  destruct images as [|img0 rest] eqn:Himg; [done|].
  split; [|done]. cbn [fst].
  generalize (enumerate (img0 :: rest) 1). intros l.
  induction l as [|[i img] l IH]; [done|].
  cbn [List.flat_map omap list_omap]. rewrite map_app, IH, alt_step_rule.
  destruct (alt_rule _) as [[k lv]|]; done.
Qed.

(** One image of each sort. *)
Example four_images_issues :
  map headline (check_alt_text four_images).1
  = [ ("Image 1", "Missing Alt Attribute", "High");
      ("Image 2", "Empty Alt Text", "Medium");
      ("Image 3", "Generic Alt Text", "Medium") ].
Proof. vm_compute; reflexivity. Qed.

Section FlaggingLoop.
Context {A B : Type} (step : list B * bool -> A -> list B * bool).
Hypothesis step_block : forall acc b x,
  step (acc, b) x = (acc ++ block_of step x, b || nonempty (block_of step x)).

Lemma fold_left_flagging (xs : list A) (acc : list B) (b : bool) :
  fold_left step xs (acc, b) =
  (acc ++ List.flat_map (block_of step) xs,
   b || nonempty (List.flat_map (block_of step) xs)).
Proof.
  revert acc b. induction xs as [|x xs IH]; intros acc b; simpl.
  - by rewrite app_nil_r, orb_false_r.
  - rewrite step_block, IH, <- app_assoc, <- orb_assoc. do 2 f_equal.
    by destruct (block_of step x), (List.flat_map (block_of step) xs).
Qed.
End FlaggingLoop.

(** ** Conversion of decimal texts *)

(** Some conversions with their binary64 values: a number without
    fraction, two that are not binary fractions, a tie that goes to the
    even neighbour, one that rounds up to 12, and zero. *)
Example of_decimal_values :
  Float.of_decimal "12" = S754_finite false 6755399441055744 (-49)
  /\ Float.of_decimal "0.1" = S754_finite false 7205759403792794 (-56)
  /\ Float.of_decimal "1.33" = S754_finite false 5989787504402760 (-52)
  /\ Float.of_decimal "9007199254740993" = S754_finite false 4503599627370496 1
  /\ Float.of_decimal "11.99999999999999999999" = Float.of_int 12
  /\ Float.of_decimal "0.00" = S754_zero false.
Proof. repeat split; vm_compute; reflexivity. Qed.

(** ** The font-size checker *)

Ltac case_eqb t :=
  match goal with
  | |- context [String.eqb t ?s] =>
      destruct (String.eqb_spec t s) as [->|?]
  end.

Lemma unit_of_text_inv (t : string) (u : css_unit) :
  unit_of_text t = Some u -> t = unit_text u.
Proof.
  unfold unit_of_text.
  repeat (case_eqb t; [by intros [= <-]|]).
  done.
Qed.

Lemma pixel_size_of_unit (m : spec_float) (t : string) :
  pixel_size_of m t = normalize_to_pixels m <$> unit_of_text t.
Proof.
  unfold pixel_size_of, unit_of_text, Str.mem. cbn [existsb].
  repeat (case_eqb t; [done|]).
  done.
Qed.

Lemma font_step_block (acc : list issue) (b : bool) (it : nat * node) :
  font_step (acc, b) it =
  (acc ++ block_of font_step it, b || nonempty (block_of font_step it)).
Proof.
  destruct it as [i el]. unfold block_of, font_step.
  destruct (Re.search_font_size _) as [[g1 g2]|]; cbn;
    [|by rewrite app_nil_r, orb_false_r].
  destruct (pixel_size_of _ _) as [p|]; cbn;
    [|by rewrite app_nil_r, orb_false_r].
  destruct (Float.ltb _ _); cbn;
    [by rewrite orb_true_r | by rewrite app_nil_r, orb_false_r].
Qed.

Lemma font_block_rule (it : nat * node) :
  block_of font_step it = small_font_rule it.
Proof.
  destruct it as [i el]. unfold block_of, font_step, small_font_rule, style_of.
  destruct (Re.search_font_size _) as [[g1 g2]|]; [|done].
  rewrite pixel_size_of_unit.
  destruct (unit_of_text (Str.lower g2)) as [u|] eqn:Hu; [|done]. cbn.
  apply unit_of_text_inv in Hu. rewrite Hu.
  by destruct (Float.ltb _ _).
Qed.

Lemma long_step_count (xs : list node) (n : nat) :
  fold_left long_step xs n =
  n + length (List.filter
                (fun el => (500 <? Str.len (Soup.get_text_strip el))%nat) xs).
Proof.
  revert n. induction xs as [|x xs IH]; intros n; simpl; [lia|].
  rewrite IH. unfold long_step.
  destruct (500 <? Str.len (Soup.get_text_strip x))%nat; simpl; lia.
Qed.

(** The result of [check_font_sizes], in closed form. *)
Lemma check_font_sizes_eq (soup : node) :
  check_font_sizes soup =
  (List.flat_map small_font_rule (styled soup) ++ long_text_rule soup,
   (if nonempty (List.flat_map small_font_rule (styled soup))
    then small_font_suggestions else [])
   ++ (if (1 <=? long_text_count soup)%nat then [long_text_suggestion] else [])).
Proof.
  unfold check_font_sizes, styled.
  rewrite (fold_left_flagging font_step font_step_block).
  rewrite long_step_count. cbn [Nat.add app orb].
  fold (long_text_count soup).
  rewrite (flat_map_ext _ _ font_block_rule).
  unfold long_text_rule, long_text_issue.
  destruct (long_text_count soup) as [|n]; cbn [Nat.ltb Nat.leb];
    destruct (nonempty _); by rewrite ?app_nil_r.
Qed.

Lemma of_kind_app (k : kind) (xs ys : list issue) :
  of_kind k (xs ++ ys) = of_kind k xs ++ of_kind k ys.
Proof. apply List.filter_app. Qed.

Lemma of_kind_all (k : kind) (xs : list issue) :
  Forall (fun x => type x = type_of k) xs -> of_kind k xs = xs.
Proof.
  induction 1 as [|x xs Hx _ IH]; [done|]. unfold of_kind in *. simpl.
  rewrite Hx, String.eqb_refl. by f_equal.
Qed.

Lemma of_kind_none (k : kind) (xs : list issue) :
  Forall (fun x => type x <> type_of k) xs -> of_kind k xs = [].
Proof.
  induction 1 as [|x xs Hx _ IH]; [done|]. unfold of_kind in *. simpl.
  by destruct (String.eqb_spec (type x) (type_of k)).
Qed.

Lemma Forall_flat_map {A B : Type} (P : B -> Prop) (f : A -> list B)
    (xs : list A) :
  (forall x, Forall P (f x)) -> Forall P (List.flat_map f xs).
Proof.
  intros Hf. induction xs as [|x xs IH]; simpl; [constructor|].
  apply Forall_app. split; [apply Hf | apply IH].
Qed.

Lemma small_font_rule_kind (it : nat * node) :
  Forall (fun x => type x = type_of SmallFont /\ severity x = severity_of Medium)
         (small_font_rule it).
Proof.
  destruct it as [i el]. unfold small_font_rule.
  destruct (Re.search_font_size _) as [[m t]|]; [|constructor].
  destruct (unit_of_text _); [|constructor].
  destruct (Float.ltb _ _); repeat constructor.
Qed.

Lemma long_text_rule_kind (soup : node) :
  Forall (fun x => type x = type_of LongTextBlock /\ severity x = severity_of Low)
         (long_text_rule soup).
Proof.
  unfold long_text_rule. destruct (1 <=? _)%nat; repeat constructor.
Qed.

Lemma font_small_issues (soup : node) :
  of_kind SmallFont (check_font_sizes soup).1
  = List.flat_map small_font_rule (styled soup).
Proof.
  rewrite check_font_sizes_eq. cbn [fst]. rewrite of_kind_app.
  rewrite of_kind_all, of_kind_none, app_nil_r; [done| |].
  - eapply Forall_impl; [apply long_text_rule_kind|]. by intros x [-> _].
  - apply Forall_flat_map. intros it.
    eapply Forall_impl; [apply small_font_rule_kind|]. by intros x [-> _].
Qed.

Lemma font_long_issues (soup : node) :
  of_kind LongTextBlock (check_font_sizes soup).1 = long_text_rule soup.
Proof.
  rewrite check_font_sizes_eq. cbn [fst]. rewrite of_kind_app.
  rewrite of_kind_none, of_kind_all, app_nil_l; [done| |].
  - eapply Forall_impl; [apply long_text_rule_kind|]. by intros x [-> _].
  - apply Forall_flat_map. intros it.
    eapply Forall_impl; [apply small_font_rule_kind|]. by intros x [-> _].
Qed.

(** *** What the pattern for [font-size] can match *)

(** The pattern at work: without regard to case and after other
    declarations; not with a second point or a point without digits, in
    which case the search goes on; with a unit that is only the start of
    a word. *)
Example search_font_size_values :
  Re.search_font_size "color: red; Font-Size:  9.5PT" = Some ("9.5", "PT")
  /\ Re.search_font_size "font-size: 1.5.2px" = None
  /\ Re.search_font_size "font-size: 12.px; font-size: 5remote"
     = Some ("5", "rem")
  /\ Re.search_font_size "font-size: .5em" = None
  /\ Re.search_font_size "font-size: 100%" = Some ("100", "%").
Proof. repeat split; vm_compute; reflexivity. Qed.

Lemma literal_lower (lit s m r : string) :
  Re.literal lit s = Some (m, r) -> Str.lower m = lit.
Proof.
  revert s m r. induction lit as [|a lit IH]; intros s m r; simpl.
  - by intros [= <- _].
  - destruct s as [|c s]; [done|].
    destruct (Ascii.eqb_spec (Str.lower_char c) a) as [Hc|]; [|done].
    destruct (Re.literal lit s) as [[m' r']|] eqn:Hl; [|done].
    intros [= <- _]. simpl. rewrite Hc. f_equal. by eapply IH.
Qed.

Lemma alternation_lower (lits : list string) (s m r : string) :
  Re.alternation lits s = Some (m, r) -> Str.lower m ∈ lits.
Proof.
  induction lits as [|l lits IH]; simpl; [done|].
  destruct (Re.literal l s) as [[m' r']|] eqn:Hl.
  - intros [= -> ->]. apply literal_lower in Hl. subst. by left.
  - intros H. right. by apply IH.
Qed.

Lemma search_at {A : Type} (at_start : string -> option A) (s : string)
    (r : A) :
  Re.search at_start s = Some r -> exists s', at_start s' = Some r.
Proof.
  induction s as [|c s IH]; simpl.
  - destruct (at_start "") eqn:H0; [|done]. intros [= <-]. eauto.
  - destruct (at_start (String c s)) eqn:H0; [intros [= <-]; eauto | apply IH].
Qed.

Lemma search_font_size_unit (style m t : string) :
  Re.search_font_size style = Some (m, t) ->
  exists u, unit_of_text (Str.lower t) = Some u.
Proof.
  intros H. apply search_at in H as [s' H]. unfold Re.font_size_at in H.
  destruct (Re.literal _ s') as [[? r0]|]; [|done].
  destruct (Re.span Str.isspace r0) as [? r1].
  destruct (Re.span Str.isdigit r1) as [ip r2].
  destruct (String.eqb ip ""); [done|].
  destruct (match r2 with "" => _ | String _ _ => _ end) as [num r3].
  destruct (Re.alternation _ r3) as [[u ?]|] eqn:Ha; [|done].
  injection H as _ ->. apply alternation_lower in Ha.
  set_unfold in Ha.
  destruct Ha as [->|[->|[->|[->|[->|[]]]]]]; eauto.
Qed.

(** C2, as amended. When the pattern of the checker for a font size
    matches in the style of a styled element, with the magnitude and the
    unit of its leftmost match, the unit is one of the five of the normalizer,
    the pixel value that the checker compares is the magnitude itself for
    px, the magnitude times 1.33 for pt, times 16 for em and rem, and a
    hundredth of it times 16 for percent, and the iteration for this
    element adds the Small Font Size issue of severity Medium exactly when
    this value, not rounded, is below 12.  The Small Font Size issues of
    the checker are what these iterations add, in document order. *)
Theorem small_font_iff (soup : node) (i : nat) (el : node) (m t : string) :
  Re.search_font_size (style_of el) = Some (m, t) ->
  exists u : css_unit,
    Str.lower t = unit_text u
    /\ pixel_size_of (Float.of_decimal m) (Str.lower t)
       = Some (normalize_to_pixels (Float.of_decimal m) u)
    /\ block_of font_step (i, el)
       = (if Float.ltb (normalize_to_pixels (Float.of_decimal m) u)
                       (Float.of_int 12)
          then [ Issue "Small Font Size" (element_label i el)
                   (SmallFontSize (Float.of_decimal m) (unit_text u)
                      (normalize_to_pixels (Float.of_decimal m) u))
                   "Medium" "WCAG 2.1 Level AA - 1.4.4" ]
          else [])
    /\ of_kind SmallFont (check_font_sizes soup).1
       = List.flat_map (block_of font_step) (styled soup).
Proof.
  intros Hs. destruct (search_font_size_unit _ _ _ Hs) as [u Hu].
  exists u. split; [by apply unit_of_text_inv|].
  split; [by rewrite pixel_size_of_unit, Hu|]. split.
  - rewrite font_block_rule. unfold small_font_rule. by rewrite Hs, Hu.
  - by rewrite font_small_issues, (flat_map_ext _ _ font_block_rule).
Qed.

Lemma small_font_iff_witness :
  Re.search_font_size (style_of nine_points) = Some ("9", "pt")
  /\ exists u : css_unit,
    Str.lower "pt" = unit_text u
    /\ pixel_size_of (Float.of_decimal "9") (Str.lower "pt")
       = Some (normalize_to_pixels (Float.of_decimal "9") u)
    /\ block_of font_step (1, nine_points)
       = (if Float.ltb (normalize_to_pixels (Float.of_decimal "9") u)
                       (Float.of_int 12)
          then [ Issue "Small Font Size" (element_label 1 nine_points)
                   (SmallFontSize (Float.of_decimal "9") (unit_text u)
                      (normalize_to_pixels (Float.of_decimal "9") u))
                   "Medium" "WCAG 2.1 Level AA - 1.4.4" ]
          else [])
    /\ of_kind SmallFont (check_font_sizes (document [nine_points])).1
       = List.flat_map (block_of font_step) (styled (document [nine_points])).
Proof.
  assert (Re.search_font_size (style_of nine_points) = Some ("9", "pt"))
    as Hs by (vm_compute; reflexivity).
  split; [exact Hs|].
  exact (small_font_iff (document [nine_points]) 1 nine_points "9" "pt" Hs).
Defined.

(** The two sizes that the specification works out: 9pt is 11.97 pixels
    and is reported, 1em is 16 pixels and is not. *)
Example font_size_9pt :
  normalize_to_pixels (Float.of_decimal "9") pt = Float.of_decimal "11.97"
  /\ (check_font_sizes (document [nine_points])).1
     = [ Issue "Small Font Size" "Element 1 (p)"
           (SmallFontSize (Float.of_decimal "9") "pt" (Float.of_decimal "11.97"))
           "Medium" "WCAG 2.1 Level AA - 1.4.4" ].
Proof. split; vm_compute; reflexivity. Qed.

Example font_size_1em :
  normalize_to_pixels (Float.of_decimal "1") em = Float.of_decimal "16.0"
  /\ (check_font_sizes (document [styled_element "p" "font-size: 1em"])).1 = [].
Proof. split; vm_compute; reflexivity. Qed.

(** C2, as the specification states it, fails on declarations of a
    font size that the pattern of the checker does not read as they are
    written.  A magnitude without a digit before the point, and a
    declaration with a space before the colon, are 8 pixels and are not
    reported; a custom property whose name ends in [font-size] is read
    as the font size, and the element is reported though it declares 16
    pixels. *)
Lemma font_size_not_as_declared :
  Float.ltb (normalize_to_pixels (Float.of_decimal "0.5") em) (Float.of_int 12)
    = true
  /\ check_font_sizes (document [styled_element "p" "font-size: .5em"])
     = ([], [])
  /\ Float.ltb (normalize_to_pixels (Float.of_decimal "8") px) (Float.of_int 12)
     = true
  /\ check_font_sizes (document [styled_element "p" "font-size : 8px"])
     = ([], [])
  /\ Float.ltb (normalize_to_pixels (Float.of_decimal "16") px) (Float.of_int 12)
     = false
  /\ (check_font_sizes
        (document [styled_element "p" "--font-size: 8px; font-size: 16px"])).1
     = [ Issue "Small Font Size" "Element 1 (p)"
           (SmallFontSize (Float.of_decimal "8") "px" (Float.of_decimal "8"))
           "Medium" "WCAG 2.1 Level AA - 1.4.4" ].
Proof. repeat split; vm_compute; reflexivity. Qed.

(** C6. [check_font_sizes] counts the p, div, span, li, td and th
    elements whose stripped text is longer than 500 characters, and its
    result holds one Long Text Blocks issue of severity Low that names
    the count when the count is at least 1, and none otherwise: one issue
    for the document, however many elements are long. *)
Theorem long_text_once (soup : node) :
  fold_left long_step (Soup.find_all (Soup.named text_kinds) soup) 0
    = long_text_count soup
  /\ of_kind LongTextBlock (check_font_sizes soup).1
     = (if (1 <=? long_text_count soup)%nat
        then [ Issue "Long Text Blocks"
                 (Str.of_nat (long_text_count soup) +:+ " elements")
                 (LongTextBlocks (long_text_count soup))
                 "Low" "WCAG 2.1 Level AAA - 2.4.8" ]
        else []).
Proof.
  split; [by rewrite long_step_count|].
  by rewrite font_long_issues.
Qed.

(** Two long elements, one inside the other: one issue that names both. *)
Example long_texts_issues :
  (check_font_sizes long_texts).1
  = [ Issue "Long Text Blocks" "2 elements" (LongTextBlocks 2)
        "Low" "WCAG 2.1 Level AAA - 2.4.8" ].
Proof. vm_compute; reflexivity. Qed.

(** ** The colour checker *)

Lemma contrast_step_block (acc : list issue) (b : bool) (it : nat * node) :
  contrast_step (acc, b) it =
  (acc ++ block_of contrast_step it, b || nonempty (block_of contrast_step it)).
Proof.
  destruct it as [i el]. unfold block_of, contrast_step.
  destruct (Re.search_color _) as [c|]; cbn;
    [|by rewrite app_nil_r, orb_false_r].
  destruct (Re.search_background_color _) as [g|]; cbn;
    [|by rewrite app_nil_r, orb_false_r].
  match goal with |- context [if ?c then _ else _] => destruct c end; cbn;
    [by rewrite orb_true_r | by rewrite app_nil_r, orb_false_r].
Qed.

Lemma contrast_block_kind (it : nat * node) :
  Forall (fun x => type x = type_of PoorContrast /\ severity x = severity_of High)
         (block_of contrast_step it).
Proof.
  destruct it as [i el]. unfold block_of, contrast_step.
  destruct (Re.search_color _) as [c|]; [|constructor].
  destruct (Re.search_background_color _) as [g|]; [|constructor].
  match goal with |- context [if ?c then _ else _] => destruct c end;
    repeat constructor.
Qed.

Lemma style_mentions_color_eq (el : node) :
  style_mentions_color el = style_contains "color:" el.
Proof.
  unfold style_mentions_color, style_contains.
  destruct (Soup.get el "style") as [s|]; [|done].
  by destruct s.
Qed.

Lemma find_all_ext (p q : node -> bool) (soup : node) :
  (forall n, p n = q n) -> Soup.find_all p soup = Soup.find_all q soup.
Proof.
  intros H. unfold Soup.find_all. apply List.filter_ext.
  intros n. by rewrite H.
Qed.

(** The result of [check_color_contrast], in closed form. *)
Lemma check_color_contrast_eq (soup : node) :
  check_color_contrast soup =
  (List.flat_map (block_of contrast_step) (styled soup)
     ++ (if (5 <? color_count soup)%nat
         then [ Issue "Color Dependency"
                  (Str.of_nat (color_count soup) +:+ " elements")
                  HeavyRelianceOnColor "Medium" "WCAG 2.1 Level A - 1.4.1" ]
         else []),
   (if nonempty (List.flat_map (block_of contrast_step) (styled soup))
    then contrast_suggestions else [])
   ++ (if (5 <? color_count soup)%nat then [color_only_suggestion] else [])).
Proof.
  unfold check_color_contrast, styled, color_count.
  rewrite (fold_left_flagging contrast_step contrast_step_block).
  rewrite (find_all_ext _ _ soup style_mentions_color_eq).
  cbn [app orb].
  destruct (5 <? _)%nat; destruct (nonempty _); by rewrite ?app_nil_r.
Qed.

Lemma color_contrast_issues (soup : node) :
  of_kind PoorContrast (check_color_contrast soup).1
  = List.flat_map (block_of contrast_step) (styled soup).
Proof.
  rewrite check_color_contrast_eq. cbn [fst]. rewrite of_kind_app.
  rewrite of_kind_all.
  - destruct (5 <? _)%nat; by rewrite ?app_nil_r.
  - apply Forall_flat_map. intros it.
    eapply Forall_impl; [apply contrast_block_kind|]. by intros x [-> _].
Qed.

Lemma color_dependency_issues (soup : node) :
  of_kind ColorDependency (check_color_contrast soup).1
  = (if (5 <? color_count soup)%nat
     then [ Issue "Color Dependency"
              (Str.of_nat (color_count soup) +:+ " elements")
              HeavyRelianceOnColor "Medium" "WCAG 2.1 Level A - 1.4.1" ]
     else []).
Proof.
  rewrite check_color_contrast_eq. cbn [fst]. rewrite of_kind_app.
  rewrite of_kind_none.
  - by destruct (5 <? _)%nat.
  - apply Forall_flat_map. intros it.
    eapply Forall_impl; [apply contrast_block_kind|]. by intros x [-> _].
Qed.

(** C5. The colour checker counts the elements whose style contains the
    text [color:], and its result holds one Color Dependency issue of
    severity Medium that names the count when the count is above 5, and
    none otherwise. *)
Theorem color_dependency_once (soup : node) :
  length (Soup.find_all style_mentions_color soup) = color_count soup
  /\ of_kind ColorDependency (check_color_contrast soup).1
     = (if (5 <? color_count soup)%nat
        then [ Issue "Color Dependency"
                 (Str.of_nat (color_count soup) +:+ " elements")
                 HeavyRelianceOnColor "Medium" "WCAG 2.1 Level A - 1.4.1" ]
        else []).
Proof.
  split; [|apply color_dependency_issues].
  unfold color_count.
  by rewrite (find_all_ext _ _ soup style_mentions_color_eq).
Qed.

(** *** Containment of texts *)

Lemma prefix_cons (c d : ascii) (a s : string) :
  String.prefix (String c a) (String d s)
  = if Ascii.ascii_dec c d then String.prefix a s else false.
Proof. reflexivity. Qed.

Lemma prefix_iff (a s : string) :
  String.prefix a s = true <-> exists r, s = a +:+ r.
Proof.
  revert s. induction a as [|c a IH]; intros s.
  - split; [by exists s | by destruct s].
  - destruct s as [|d s]; [split; [done | by intros [r [=]]]|].
    rewrite prefix_cons.
    destruct (Ascii.ascii_dec c d) as [->|Hne].
    + rewrite IH. split; intros [r Hr]; exists r;
        [by cbn; rewrite Hr | by injection Hr].
    + split; [done | intros [r [=]]; congruence].
Qed.

Lemma contains_cons (sub : string) (c : ascii) (s : string) :
  Str.contains sub (String c s)
  = String.prefix sub (String c s) || Str.contains sub s.
Proof. reflexivity. Qed.

Lemma contains_iff (sub s : string) :
  Str.contains sub s = true <-> exists p r, s = p +:+ sub +:+ r.
Proof.
  induction s as [|c s IH].
  - change (Str.contains sub "") with (String.prefix sub "" || false).
    rewrite orb_false_r, prefix_iff. split.
    + intros [r Hr]. by exists "", r.
    + intros (p & r & H). destruct p; [by exists r | done].
  - rewrite contains_cons, orb_true_iff, prefix_iff, IH. split.
    + intros [[r Hr]|(p & r & Hr)]; [by exists "", r|].
      exists (String c p), r. cbn. by rewrite Hr.
    + intros (p & r & Hr). destruct p as [|d p]; [left; by exists r|].
      right. exists p, r. by injection Hr.
Qed.

Lemma append_cons (x : ascii) (a b : string) :
  String x a +:+ b = String x (a +:+ b).
Proof. reflexivity. Qed.

Lemma append_assoc (a b c : string) : (a +:+ b) +:+ c = a +:+ (b +:+ c).
Proof.
  induction a as [|x a IH]; [done|]. by rewrite !append_cons, IH.
Qed.

Lemma contains_tail (a b s : string) :
  Str.contains (a +:+ b) s = true -> Str.contains b s = true.
Proof.
  rewrite !contains_iff. intros (p & r & ->).
  exists (p +:+ a), r. by rewrite !append_assoc.
Qed.

Lemma filter_length_le {A : Type} (p q : A -> bool) (l : list A) :
  (forall x, p x = true -> q x = true) ->
  length (List.filter p l) <= length (List.filter q l).
Proof.
  intros H. induction l as [|x l IH]; simpl; [lia|].
  destruct (p x) eqn:Hp.
  - rewrite (H x Hp). simpl. lia.
  - destruct (q x); simpl; lia.
Qed.

Lemma background_mentions_color (el : node) :
  style_contains "background-color:" el = true ->
  style_mentions_color el = true.
Proof.
  rewrite style_mentions_color_eq. unfold style_contains.
  destruct (Soup.get el "style") as [s|]; [|done].
  apply (contains_tail "background-" "color:").
Qed.

(** C10. An element whose style contains the text [background-color:]
    passes the filter of the colour dependency count, whether or not it
    declares a text colour, since that text contains [color:].  A
    document with six such elements is over the threshold: its result
    holds the Color Dependency issue and the suggestion that goes with
    it. *)
Theorem background_color_counts (soup : node) :
  6 <= length (Soup.find_all (style_contains "background-color:") soup) ->
  Forall (fun el => style_mentions_color el = true)
         (Soup.find_all (style_contains "background-color:") soup)
  /\ of_kind ColorDependency (check_color_contrast soup).1
     = [ Issue "Color Dependency"
           (Str.of_nat (color_count soup) +:+ " elements")
           HeavyRelianceOnColor "Medium" "WCAG 2.1 Level A - 1.4.1" ]
  /\ color_only_suggestion ∈ (check_color_contrast soup).2.
Proof.
  intros Hsix. split.
  - apply List.Forall_forall. intros el Hel.
    apply List.filter_In in Hel as [_ Hel].
    apply andb_true_iff in Hel as [_ Hel].
    by apply background_mentions_color.
  - assert ((5 <? color_count soup)%nat = true) as Hover.
    { apply Nat.ltb_lt. unfold color_count, Soup.find_all in *.
      eapply Nat.lt_le_trans; [exact Hsix|].
      apply filter_length_le. intros n Hn.
      apply andb_true_iff in Hn as [Ht Hn]. rewrite Ht. simpl.
      rewrite <- style_mentions_color_eq. by apply background_mentions_color. }
    split.
    + by rewrite color_dependency_issues, Hover.
    + rewrite check_color_contrast_eq. cbn [snd]. rewrite Hover.
      apply elem_of_app. right. by apply list_elem_of_singleton.
Qed.

Lemma background_color_counts_witness :
  6 <= length (Soup.find_all (style_contains "background-color:") six_backgrounds)
  /\ Forall (fun el => style_mentions_color el = true)
            (Soup.find_all (style_contains "background-color:") six_backgrounds)
  /\ of_kind ColorDependency (check_color_contrast six_backgrounds).1
     = [ Issue "Color Dependency"
           (Str.of_nat (color_count six_backgrounds) +:+ " elements")
           HeavyRelianceOnColor "Medium" "WCAG 2.1 Level A - 1.4.1" ]
  /\ color_only_suggestion ∈ (check_color_contrast six_backgrounds).2.
Proof.
  assert (6 <= length (Soup.find_all (style_contains "background-color:")
                                     six_backgrounds))
    as Hsix by (vm_compute; lia).
  split; [exact Hsix|].
  exact (background_color_counts six_backgrounds Hsix).
Defined.

(** Six backgrounds and no text colour: the issue names six elements. *)
Example six_backgrounds_issues :
  (check_color_contrast six_backgrounds).1
  = [ Issue "Color Dependency" "6 elements" HeavyRelianceOnColor
        "Medium" "WCAG 2.1 Level A - 1.4.1" ].
Proof. vm_compute; reflexivity. Qed.

(** *** The two colour patterns *)

(** The patterns at work: the value runs to the semicolon; a value of
    spaces only is matched as its last space; the pattern for the text
    colour also matches inside [background-color]. *)
Example search_color_values :
  Re.search_color "color: navy; background-color: lightgray" = Some "navy"
  /\ Re.search_background_color "color: navy; background-COLOR: lightgray "
     = Some "lightgray "
  /\ Re.search_color "color:  ; x" = Some " "
  /\ Re.search_color "color:;" = None
  /\ Re.search_color "background-color: white" = Some "white"
  /\ Re.search_color "background-color: lightgray; color: navy"
     = Some "lightgray".
Proof. repeat split; vm_compute; reflexivity. Qed.

Lemma literal_split (lit s m r : string) :
  Re.literal lit s = Some (m, r) -> s = m +:+ r.
Proof.
  revert s m r. induction lit as [|a lit IH]; intros s m r; cbn [Re.literal].
  - by intros [= <- <-].
  - destruct s as [|c s]; [done|].
    destruct (Ascii.eqb _ _); [|done].
    destruct (Re.literal lit s) as [[m' r']|] eqn:Hl; [|done].
    intros [= <- <-]. rewrite append_cons. f_equal. by apply IH.
Qed.

Lemma literal_app (a b s : string) :
  Re.literal (a +:+ b) s =
  match Re.literal a s with
  | Some (m1, r1) =>
      match Re.literal b r1 with
      | Some (m2, r2) => Some (m1 +:+ m2, r2)
      | None => None
      end
  | None => None
  end.
Proof.
  revert s. induction a as [|x a IH]; intros s.
  - change ("" +:+ b) with b. cbn [Re.literal].
    by destruct (Re.literal b s) as [[m2 r2]|].
  - rewrite append_cons. cbn [Re.literal].
    destruct s as [|c s]; [done|].
    destruct (Ascii.eqb _ _); [|done].
    rewrite IH. destruct (Re.literal a s) as [[m1 r1]|]; [|done].
    by destruct (Re.literal b r1) as [[m2 r2]|].
Qed.

Lemma search_found {A : Type} (at_start : string -> option A)
    (p s : string) (r : A) :
  at_start s = Some r -> exists r', Re.search at_start (p +:+ s) = Some r'.
Proof.
  intros H. induction p as [|x p IH].
  - exists r. change ("" +:+ s) with s. destruct s; cbn; by rewrite H.
  - rewrite append_cons. cbn [Re.search].
    destruct (at_start (String x (p +:+ s))); eauto.
Qed.

Lemma search_where {A : Type} (at_start : string -> option A) (s : string)
    (r : A) :
  Re.search at_start s = Some r ->
  exists p s', s = p +:+ s' /\ at_start s' = Some r.
Proof.
  induction s as [|c s IH]; cbn [Re.search].
  - destruct (at_start "") eqn:H0; [|done]. intros [= <-]. by exists "", "".
  - destruct (at_start (String c s)) eqn:H0.
    + intros [= <-]. by exists "", (String c s).
    + intros H. destruct (IH H) as (p & s' & -> & Hs').
      by exists (String c p), s'.
Qed.

(** Wherever the pattern for [background-color] matches, the pattern for
    [color] matches eleven characters further on, with the same group. *)
Lemma declaration_inside_background (s v : string) :
  Re.declaration_at "background-color:" s = Some v ->
  exists m s', s = m +:+ s' /\ Re.declaration_at "color:" s' = Some v.
Proof.
  unfold Re.declaration_at.
  change "background-color:" with ("background-" +:+ "color:").
  rewrite literal_app.
  destruct (Re.literal "background-" s) as [[m1 r1]|] eqn:H1; [|done].
  destruct (Re.literal "color:" r1) as [[m2 r2]|] eqn:H2; [|done].
  intros H. exists m1, r1. split; [by apply literal_split in H1|].
  by rewrite H2.
Qed.

(** So the test [color_match and bg_match] holds as soon as the style
    has a match for [background-color]. *)
Lemma background_match_is_color_match (style v : string) :
  Re.search_background_color style = Some v ->
  exists v', Re.search_color style = Some v'.
Proof.
  intros H. apply search_where in H as (p & s' & -> & H).
  apply declaration_inside_background in H as (m & s'' & -> & H).
  rewrite <- append_assoc. by eapply search_found.
Qed.

(** C4. Two elements on which the colour checker departs from the rule
    of the specification.  With [background-color: lightgray; color:
    navy] the text colour read is that of the background, so a dark text
    on a light background is reported with both colours named lightgray;
    with [background-color: white] alone, which declares no text colour,
    white on white is reported. *)
Theorem contrast_reads_background_as_color :
  (check_color_contrast
     (document [styled_element "p" "background-color: lightgray; color: navy"])).1
  = [ Issue "Poor Color Contrast" "Element 1 (p)"
        (InsufficientContrast "lightgray" "lightgray")
        "High" "WCAG 2.1 Level AA - 1.4.3" ]
  /\ (is_light "navy", is_dark "navy") = (false, true)
  /\ (is_light "lightgray", is_dark "lightgray") = (true, false)
  /\ (check_color_contrast
        (document [styled_element "p" "background-color: white"])).1
     = [ Issue "Poor Color Contrast" "Element 1 (p)"
           (InsufficientContrast "white" "white")
           "High" "WCAG 2.1 Level AA - 1.4.3" ].
Proof. repeat split; vm_compute; reflexivity. Qed.

(** The example of the specification, with the declarations in the order
    in which it writes them, is not reported. *)
Example navy_on_lightgray :
  (check_color_contrast
     (document [styled_element "p" "color: navy; background-color: lightgray"])).1
  = [].
Proof. vm_compute; reflexivity. Qed.

(** C1, as the specification states it, fails on a token that contains
    entries of both reference lists: it matches both. *)
Lemma token_in_both_sets :
  Re.search_color "color: white black" = Some "white black"
  /\ is_light "white black" = true
  /\ is_dark "white black" = true.
Proof. repeat split; vm_compute; reflexivity. Qed.

(** C1, as amended. The two reference lists have no entry in common, and
    an entry of one list never matches the other list.  An element whose
    text colour or background colour matches neither list is skipped:
    its iteration adds no issue. *)
Theorem neither_set_no_issue (i : nat) (el : node) (c b : string) :
  Re.search_color (style_of el) = Some c ->
  Re.search_background_color (style_of el) = Some b ->
  (is_light (Str.strip c) || is_dark (Str.strip c))
    && (is_light (Str.strip b) || is_dark (Str.strip b)) = false ->
  block_of contrast_step (i, el) = []
  /\ Forall (fun l => ~ (l ∈ dark_colors)
                      /\ is_light l = true /\ is_dark l = false)
            light_colors
  /\ Forall (fun d => ~ (d ∈ light_colors)
                      /\ is_dark d = true /\ is_light d = false)
            dark_colors.
Proof.
  intros Hc Hb Hn. split.
  - unfold block_of, contrast_step. fold (style_of el). rewrite Hc, Hb.
    destruct (is_light (Str.strip c)), (is_dark (Str.strip c)),
      (is_light (Str.strip b)), (is_dark (Str.strip b)); done.
  - split; apply (bool_decide_unpack _); vm_compute; exact I.
Qed.

Lemma neither_set_no_issue_witness :
  Re.search_color (style_of red_on_white) = Some "red"
  /\ Re.search_background_color (style_of red_on_white) = Some "white"
  /\ (is_light (Str.strip "red") || is_dark (Str.strip "red"))
       && (is_light (Str.strip "white") || is_dark (Str.strip "white")) = false
  /\ block_of contrast_step (1, red_on_white) = [].
Proof.
  assert (Re.search_color (style_of red_on_white) = Some "red") as Hc
    by (vm_compute; reflexivity).
  assert (Re.search_background_color (style_of red_on_white) = Some "white")
    as Hb by (vm_compute; reflexivity).
  assert ((is_light (Str.strip "red") || is_dark (Str.strip "red"))
          && (is_light (Str.strip "white") || is_dark (Str.strip "white"))
          = false) as Hn by (vm_compute; reflexivity).
  repeat (split; [assumption|]).
  exact (proj1 (neither_set_no_issue 1 red_on_white "red" "white" Hc Hb Hn)).
Defined.

(** ** The aggregator *)

Lemma issue_step_app (acc : list piece) (x : issue) :
  issue_step acc x = acc ++ issue_step [] x.
Proof. unfold issue_step. by rewrite <- !app_assoc. Qed.

Lemma fold_issue_step (xs : list issue) (acc : list piece) :
  fold_left issue_step xs acc = acc ++ List.flat_map entry xs.
Proof. apply (fold_left_appending issue_step issue_step_app). Qed.

Lemma section_eq (heading : piece) (xs : list issue) (report : list piece) :
  match xs with
  | [] => report
  | _ :: _ => fold_left issue_step xs (report ++ [heading])
  end = report ++ severity_section heading xs.
Proof.
  destruct xs as [|x xs]; [by rewrite app_nil_r|].
  rewrite fold_issue_step. unfold severity_section.
  by rewrite <- app_assoc.
Qed.

Lemma fold_bullets (xs : list string) (acc : list piece) :
  fold_left (fun report suggestion => report ++ [Bullet suggestion]) xs acc
  = acc ++ map Bullet xs.
Proof.
  revert acc. induction xs as [|x xs IH]; intros acc; simpl.
  - by rewrite app_nil_r.
  - by rewrite IH, <- app_assoc.
Qed.

Lemma fold_actions (xs : list (nat * string)) (acc : list piece) :
  fold_left (fun report '(i, suggestion) => report ++ [Action i suggestion])
            xs acc
  = acc ++ map (fun '(i, s) => Action i s) xs.
Proof.
  revert acc. induction xs as [|[i x] xs IH]; intros acc; simpl.
  - by rewrite app_nil_r.
  - by rewrite IH, <- app_assoc.
Qed.

Lemma actions_eq (suggestions : list string) (report : list piece) :
  match suggestions with
  | [] => report
  | _ :: _ =>
      fold_left (fun report '(i, suggestion) => report ++ [Action i suggestion])
                (enumerate suggestions 1) (report ++ [ActionsHeading])
  end = report ++ actions suggestions.
Proof.
  destruct suggestions as [|s l]; [by rewrite app_nil_r|].
  rewrite fold_actions. unfold actions. by rewrite <- app_assoc.
Qed.


Lemma with_severity_partition (xs : list issue) :
  Forall (fun x => severity x ∈ severities) xs ->
  Permutation
    (with_severity "High" xs ++ with_severity "Medium" xs
       ++ with_severity "Low" xs) xs.
Proof.
  unfold with_severity.
  induction 1 as [|x xs Hx _ IH]; [constructor|]. simpl.
  unfold severities in Hx. set_unfold in Hx.
  destruct Hx as [->|[->|[->|[]]]]; simpl.
  - by constructor.
  - symmetry. etrans; [|apply Permutation_middle]. by constructor.
  - symmetry. rewrite app_assoc.
    etrans; [|apply Permutation_middle]. rewrite <- app_assoc. by constructor.
Qed.

Lemma all_issues_severity (soup : node) :
  Forall (fun x => severity x ∈ severities) (all_issues soup).
Proof.
  unfold all_issues.
  rewrite check_alt_text_eq, check_font_sizes_eq, check_color_contrast_eq.
  repeat apply Forall_app_2.
  - destruct (Soup.find_all _ soup); [constructor|]. cbn [fst].
    apply Forall_flat_map, alt_step_severity.
  - apply Forall_flat_map. intros it.
    eapply Forall_impl; [apply small_font_rule_kind|].
    intros x [_ ->]. unfold severities. set_solver.
  - eapply Forall_impl; [apply long_text_rule_kind|].
    intros x [_ ->]. unfold severities. set_solver.
  - apply Forall_flat_map. intros it.
    eapply Forall_impl; [apply contrast_block_kind|].
    intros x [_ ->]. unfold severities. set_solver.
  - destruct (5 <? _)%nat; [|constructor].
    constructor; [|constructor]. unfold severities. set_solver.
Qed.



(** The issues of the scenario: four, three of them High. *)
Example scenario_issues :
  map headline (all_issues scenario)
  = [ ("Image 1", "Missing Alt Attribute", "High");
      ("Element 2 (p)", "Small Font Size", "Medium");
      ("Element 1 (h1)", "Poor Color Contrast", "High");
      ("Element 3 (div)", "Poor Color Contrast", "High") ].
Proof. vm_compute; reflexivity. Qed.

Lemma lists_set_nil (ys : list string) : lists_set [] ys -> ys = [].
Proof.
  intros [_ H]. apply elem_of_nil_inv. intros x Hx.
  apply H in Hx. by apply elem_of_nil in Hx.
Qed.

Lemma lists_set_singleton (x : string) (ys : list string) :
  lists_set [x] ys -> ys = [x].
Proof.
  intros [Hnd H]. destruct ys as [|y ys].
  - assert (x ∈ @nil string) as Hx by (apply H; by left).
    by apply elem_of_nil in Hx.
  - assert (y = x) as -> by (apply list_elem_of_singleton, H; by left).
    f_equal. apply elem_of_nil_inv. intros z Hz.
    apply NoDup_cons in Hnd as [Hnotin _]. apply Hnotin.
    assert (z = x) as <-; [|done].
    apply list_elem_of_singleton, H. by right.
Qed.

Lemma lists_set_remove_dups (xs : list string) : lists_set xs (remove_dups xs).
Proof.
  split; [apply NoDup_remove_dups | intros x; apply elem_of_remove_dups].
Qed.

(** Without any issue, the only suggestion there can be is the one for a
    document without images. *)
Lemma no_issues_suggestions (soup : node) :
  all_issues soup = [] ->
  merged_suggestions soup = []
  \/ merged_suggestions soup = [no_images_suggestion].
Proof.
  unfold all_issues, merged_suggestions.
  rewrite check_alt_text_eq, check_font_sizes_eq, check_color_contrast_eq.
  cbn [fst snd]. intros H.
  apply app_eq_nil in H as [Ha H]. apply app_eq_nil in H as [Hf Hc].
  apply app_eq_nil in Hf as [Hf1 Hf2]. apply app_eq_nil in Hc as [Hc1 Hc2].
  rewrite Hf1, Hc1. cbn [nonempty app].
  unfold long_text_rule in Hf2.
  destruct (1 <=? long_text_count soup)%nat; [done|].
  destruct (5 <? color_count soup)%nat; [done|]. cbn [app].
  destruct (Soup.find_all _ soup) as [|img rest]; [by right|].
  cbn [fst snd] in *. rewrite Ha. by left.
Qed.

(** C8. The suggestions of the aggregator hold no text twice: a text
    that checkers emit, however often, is there exactly once.  When
    there is no issue at all, the result is the narrative without
    issues, which names the first three suggestions at most, in the
    order of insertion, and the count 0. *)
Theorem suggestions_deduplicated (list_of_set : list string -> list string)
    (soup : node) (source_type : source) :
  (forall xs, lists_set xs (list_of_set xs)) ->
  NoDup (all_suggestions list_of_set soup)
  /\ Forall (fun s => count_occ string_dec (all_suggestions list_of_set soup) s = 1)
            (merged_suggestions soup)
  /\ (all_issues soup = [] ->
      analyze_accessibility list_of_set soup source_type
      = ([GreatNews; BestPractices]
           ++ map Bullet (firstn 3 (insertion_order (merged_suggestions soup))),
         CompletedSuccessfully, 0)).
Proof.
  intros Hset.
  destruct (Hset (merged_suggestions soup)) as [Hnd Hin].
  change (list_of_set (merged_suggestions soup))
    with (all_suggestions list_of_set soup) in Hnd, Hin.
  split; [exact Hnd|]. split.
  - apply List.Forall_forall. intros s Hs.
    apply (proj1 (NoDup_count_occ' string_dec _)
             (proj1 (NoDup_ListNoDup _) Hnd)).
    apply list_elem_of_In, Hin. by apply list_elem_of_In.
  - intros Hall. unfold analyze_accessibility. rewrite Hall.
    rewrite fold_bullets. cbn [length app]. do 2 f_equal.
    change (all_suggestions list_of_set soup)
      with (list_of_set (merged_suggestions soup)).
    destruct (no_issues_suggestions soup Hall) as [Hm|Hm].
    + generalize (Hset (merged_suggestions soup)). rewrite Hm.
      by intros ->%lists_set_nil.
    + generalize (Hset (merged_suggestions soup)). rewrite Hm.
      by intros ->%lists_set_singleton.
Qed.

Lemma suggestions_deduplicated_witness :
  (forall xs, lists_set xs (remove_dups xs))
  /\ all_issues (document []) = []
  /\ analyze_accessibility remove_dups (document []) url
     = ([GreatNews; BestPractices; Bullet no_images_suggestion],
        CompletedSuccessfully, 0).
Proof.
  split; [exact lists_set_remove_dups|].
  assert (all_issues (document []) = []) as Hall by reflexivity.
  split; [exact Hall|].
  exact (proj2 (proj2 (suggestions_deduplicated remove_dups (document []) url
                         lists_set_remove_dups)) Hall).
Defined.

(** The suggestions of the three checkers, by the kinds of issue found. *)
Lemma alt_suggestions_eq (soup : node) :
  (check_alt_text soup).1 <> [] -> (check_alt_text soup).2 = alt_suggestions.
Proof.
  rewrite check_alt_text_eq.
  destruct (Soup.find_all _ soup); [done|]. cbn [fst snd].
  by destruct (List.flat_map _ _).
Qed.

Lemma font_suggestions_eq (soup : node) :
  (check_font_sizes soup).2
  = (if nonempty (of_kind SmallFont (check_font_sizes soup).1)
     then small_font_suggestions else [])
    ++ (if nonempty (of_kind LongTextBlock (check_font_sizes soup).1)
        then [long_text_suggestion] else []).
Proof.
  rewrite font_small_issues, font_long_issues, check_font_sizes_eq.
  cbn [snd]. unfold long_text_rule. by destruct (1 <=? _)%nat.
Qed.

Lemma color_suggestions_eq (soup : node) :
  (check_color_contrast soup).2
  = (if nonempty (of_kind PoorContrast (check_color_contrast soup).1)
     then contrast_suggestions else [])
    ++ (if nonempty (of_kind ColorDependency (check_color_contrast soup).1)
        then [color_only_suggestion] else []).
Proof.
  rewrite color_contrast_issues, color_dependency_issues.
  rewrite check_color_contrast_eq. cbn [snd]. by destruct (5 <? _)%nat.
Qed.

(** C9. Each kind of issue that a checker raises brings its fixed
    suggestions: the four of the alt-text checker with any of its
    issues, three with a small font, one with a long text, three with a
    poor contrast, one with the dependency on colour.  So a checker
    whose issues are not empty has suggestions, and the suggestions of
    the aggregator are not empty when its issues are not. *)
Theorem suggestions_follow_issues (list_of_set : list string -> list string)
    (soup : node) :
  (forall xs, lists_set xs (list_of_set xs)) ->
  ((check_alt_text soup).1 <> [] -> (check_alt_text soup).2 = alt_suggestions)
  /\ (check_font_sizes soup).2
     = (if nonempty (of_kind SmallFont (check_font_sizes soup).1)
        then small_font_suggestions else [])
       ++ (if nonempty (of_kind LongTextBlock (check_font_sizes soup).1)
           then [long_text_suggestion] else [])
  /\ (check_color_contrast soup).2
     = (if nonempty (of_kind PoorContrast (check_color_contrast soup).1)
        then contrast_suggestions else [])
       ++ (if nonempty (of_kind ColorDependency (check_color_contrast soup).1)
           then [color_only_suggestion] else [])
  /\ ((check_alt_text soup).1 <> [] -> (check_alt_text soup).2 <> [])
  /\ ((check_font_sizes soup).1 <> [] -> (check_font_sizes soup).2 <> [])
  /\ ((check_color_contrast soup).1 <> [] -> (check_color_contrast soup).2 <> [])
  /\ (all_issues soup <> [] -> all_suggestions list_of_set soup <> []).
Proof.
  intros Hset.
  assert ((check_alt_text soup).1 <> [] -> (check_alt_text soup).2 <> [])
    as Halt by (intros H; by rewrite (alt_suggestions_eq soup H)).
  assert ((check_font_sizes soup).1 <> [] -> (check_font_sizes soup).2 <> [])
    as Hfont.
  { rewrite check_font_sizes_eq. cbn [fst snd]. unfold long_text_rule.
    destruct (List.flat_map _ _); [|done]. cbn [nonempty app].
    by destruct (1 <=? _)%nat. }
  assert ((check_color_contrast soup).1 <> []
          -> (check_color_contrast soup).2 <> []) as Hcolor.
  { rewrite check_color_contrast_eq. cbn [fst snd].
    destruct (List.flat_map _ _); [|done]. cbn [nonempty app].
    by destruct (5 <? _)%nat. }
  split; [apply alt_suggestions_eq|].
  split; [apply font_suggestions_eq|].
  split; [apply color_suggestions_eq|].
  repeat (split; [assumption|]).
  intros Hne Hnil. apply Hne. unfold all_issues.
  destruct (Hset (merged_suggestions soup)) as [_ Hin].
  change (list_of_set (merged_suggestions soup))
    with (all_suggestions list_of_set soup) in Hin.
  rewrite Hnil in Hin.
  assert (merged_suggestions soup = []) as Hm.
  { apply elem_of_nil_inv. intros x Hx. apply Hin in Hx.
    by apply elem_of_nil in Hx. }
  unfold merged_suggestions in Hm.
  apply app_eq_nil in Hm as [Ha Hm]. apply app_eq_nil in Hm as [Hf Hc].
  destruct (check_alt_text soup).1 as [|x xs] eqn:Ea;
    [|exfalso; by apply Halt].
  destruct (check_font_sizes soup).1 as [|y ys] eqn:Ef;
    [|exfalso; by apply Hfont].
  destruct (check_color_contrast soup).1 as [|z zs] eqn:Ec;
    [|exfalso; by apply Hcolor].
  done.
Qed.

Lemma suggestions_follow_issues_witness :
  (forall xs, lists_set xs (remove_dups xs))
  /\ all_issues scenario <> []
  /\ all_suggestions remove_dups scenario <> [].
Proof.
  split; [exact lists_set_remove_dups|].
  assert (all_issues scenario <> []) as Hne by (vm_compute; discriminate).
  split; [exact Hne|].
  exact (proj2 (proj2 (proj2 (proj2 (proj2 (proj2
           (suggestions_follow_issues remove_dups scenario
              lists_set_remove_dups)))))) Hne).
Defined.

(** * Further properties of the program *)

(** ** Fetching the content *)

Lemma prefix_append (p s : string) : String.prefix p (p +:+ s) = true.
Proof. apply prefix_iff. by exists s. Qed.

Lemma run_bind {A B : Type} (net : string -> list (string * string) -> nat -> reply)
    (m : io A) (f : A -> io B) :
  run net (bind m f)
  = match run net m with
    | inl a => run net (f a)
    | inr e => inr e
    end.
Proof. induction m as [a|a h t k IH|e]; cbn; [done | apply IH | done]. Qed.

(** X1. A request is only ever made for an input that is not markup, to
    an address that starts with [http://] or [https://]: the stripped
    input itself, or [https://] before it when it starts with [www.];
    it carries the browser-like user agent and a timeout of 10. *)
Theorem fetch_requests_http (input_text address : string)
    (headers : list (string * string)) (timeout : nat)
    (k : reply -> io (option string * string)) :
  fetch_html_content input_text = Get address headers timeout k ->
  is_markup input_text = false
  /\ (String.prefix "http://" address = true
      \/ String.prefix "https://" address = true)
  /\ (address = Str.strip input_text
      \/ String.prefix "www." (Str.strip input_text) = true
         /\ address = "https://" +:+ Str.strip input_text)
  /\ headers = [("User-Agent", user_agent)]
  /\ timeout = 10.
Proof.
  unfold fetch_html_content, is_markup, startswith_any. cbn [existsb].
  destruct (String.prefix "<" _ && Str.contains ">" _); [done|].
  destruct (String.prefix "www." (Str.strip input_text)) eqn:Hwww.
  - rewrite !orb_true_r. intros [= <- <- <- _].
    split; [done|]. split; [right; apply prefix_append|].
    split; [by right | done].
  - rewrite !orb_false_r.
    destruct (String.prefix "http://" _) eqn:Hhttp; cbn [orb].
    + intros [= <- <- <- _]. repeat split; auto.
    + destruct (String.prefix "https://" _) eqn:Hhttps; [|done].
      intros [= <- <- <- _]. repeat split; auto.
Qed.

Lemma fetch_requests_http_witness :
  exists k,
    fetch_html_content "  www.w3.org/WAI/ "
    = Get "https://www.w3.org/WAI/" [("User-Agent", user_agent)] 10 k
    /\ is_markup "  www.w3.org/WAI/ " = false
    /\ (String.prefix "http://" "https://www.w3.org/WAI/" = true
        \/ String.prefix "https://" "https://www.w3.org/WAI/" = true).
Proof.
  eexists. split; [reflexivity|].
  pose proof (fetch_requests_http "  www.w3.org/WAI/ " _ _ _ _ eq_refl) as H.
  split; [exact (proj1 H) | exact (proj1 (proj2 H))].
Defined.

(** X2. Whatever the request does, the function ends in one of these
    ways.  It returns content with the source type [raw_html]: the
    input is markup and the content is the stripped input.  It returns
    content with the source type [url]: the input is no markup and the
    content is the text of a response with status 200 to the request
    for its address.  It returns no content, and a second component
    that is neither of the two source types: the text for an invalid
    format when the input does not start like an address, the text with
    the status for a response with another status, the text with the
    message for a [RequestException].  Or the request raises another
    exception, and that exception comes out of the function. *)
Theorem fetch_result (net : string -> list (string * string) -> nat -> reply)
    (input_text : string) :
  match run net (fetch_html_content input_text) with
  | inl (Some html, source_type) =>
      source_type = "raw_html" /\ is_markup input_text = true
      /\ html = Str.strip input_text
      \/ source_type = "url" /\ is_markup input_text = false
         /\ is_address input_text = true
         /\ net (address_of input_text) [("User-Agent", user_agent)] 10
            = Response 200 html
  | inl (None, source_type) =>
      source_type <> "raw_html" /\ source_type <> "url"
      /\ is_markup input_text = false
      /\ (is_address input_text = false
          /\ source_type = "Invalid input format"
          \/ is_address input_text = true
             /\ ((exists code text,
                    net (address_of input_text) [("User-Agent", user_agent)] 10
                    = Response code text
                    /\ code <> 200
                    /\ source_type = "HTTP Error " +:+ Str.of_nat code)
                 \/ (exists e,
                       net (address_of input_text) [("User-Agent", user_agent)] 10
                       = RequestException e
                       /\ source_type = "Request failed: " +:+ e)))
  | inr e =>
      is_markup input_text = false /\ is_address input_text = true
      /\ net (address_of input_text) [("User-Agent", user_agent)] 10
         = OtherException e
  end.
Proof.
  unfold fetch_html_content, is_markup, is_address, address_of.
  destruct (String.prefix "<" _ && Str.contains ">" _).
  { by left. }
  destruct (startswith_any _ _).
  - cbn [run].
    destruct (net _ _ _) as [code text|e|e] eqn:Hnet; cbn [run].
    + destruct (Nat.eqb_spec code 200) as [->|Hcode]; cbn [run].
      * right. by repeat split.
      * repeat split; [done..|]. right. split; [done|]. left. eauto.
    + repeat split; [done..|]. right. split; [done|]. right. eauto.
    + by repeat split.
  - cbn [run]. repeat split; [done..|]. by left.
Qed.

(** A page served with status 200, and a host name that the address
    parser refuses. *)
Example fetch_result_values :
  run (serves "<p>page</p>") (fetch_html_content "https://example.com")
    = inl (Some "<p>page</p>", "url")
  /\ run (fun _ _ _ => Response 404 "<p>not here</p>")
         (fetch_html_content "www.example.com/missing")
     = inl (None, "HTTP Error 404")
  /\ run (fun _ _ _ => OtherException "Failed to parse")
         (fetch_html_content "http://example..com")
     = inr "Failed to parse".
Proof. repeat split; vm_compute; reflexivity. Qed.

(** ** From the input to the report *)

Lemma core_count (list_of_set : list string -> list string) (soup : node)
    (source_type : source) :
  (analyze_accessibility list_of_set soup source_type).2
  = length (all_issues soup).
Proof. unfold analyze_accessibility. by destruct (all_issues soup). Qed.

Lemma markup_not_blank (input_text : string) :
  is_markup input_text = true -> Str.strip input_text <> "".
Proof. unfold is_markup. by destruct (Str.strip input_text). Qed.

(** X3. For an input that is markup, no request is made and the result
    is that of the checks on the tree parsed from the stripped input,
    with the source type [raw_html]. *)
Theorem front_markup (parse : string -> node + string)
    (list_of_set : list string -> list string) (input_text : string)
    (soup : node) :
  is_markup input_text = true ->
  parse (Str.strip input_text) = inl soup ->
  Front.analyze_accessibility parse list_of_set input_text
  = Ret (Pieces (analyze_accessibility list_of_set soup raw_html).1.1,
         Checked (analyze_accessibility list_of_set soup raw_html).1.2,
         (analyze_accessibility list_of_set soup raw_html).2).
Proof.
  intros Hm Hp. unfold Front.analyze_accessibility.
  destruct (String.eqb_spec (Str.strip input_text) "") as [He|_];
    [by apply markup_not_blank in Hm|].
  unfold fetch_html_content. unfold is_markup in Hm. rewrite Hm.
  cbn [bind]. rewrite Hp. cbn [Front.source_of String.eqb].
  change (Front.source_of "raw_html") with raw_html.
  by destruct (analyze_accessibility list_of_set soup raw_html) as [[r s] n].
Qed.

Lemma front_markup_witness :
  is_markup " <img src=a.png> " = true
  /\ parses image_page image_tree (Str.strip " <img src=a.png> ") = inl image_tree
  /\ Front.analyze_accessibility (parses image_page image_tree) remove_dups
       " <img src=a.png> "
     = Ret (Pieces (analyze_accessibility remove_dups image_tree raw_html).1.1,
            Checked (analyze_accessibility remove_dups image_tree raw_html).1.2,
            (analyze_accessibility remove_dups image_tree raw_html).2).
Proof.
  assert (is_markup " <img src=a.png> " = true) as Hm by reflexivity.
  assert (parses image_page image_tree (Str.strip " <img src=a.png> ")
          = inl image_tree) as Hp by reflexivity.
  repeat (split; [assumption|]).
  exact (front_markup (parses image_page image_tree) remove_dups
           " <img src=a.png> " image_tree Hm Hp).
Defined.

(** X4. The analysis of an input composes the fetch, the parser and the
    checks, and each plain result has its cause.  A blank input gives
    the request to provide one.  Otherwise an exception that comes out
    of the fetch comes out of the analysis; a fetch without content
    gives its error text after [Error: ]; content that the parser
    refuses gives the text of the parser after [Error parsing HTML: ];
    all three plain results have the count 0.  Content that the parser
    accepts gives the report and the status of the checks on the tree
    parsed from that very content, and the number of its issues as the
    count. *)
Theorem front_outcome (parse : string -> node + string)
    (list_of_set : list string -> list string)
    (net : string -> list (string * string) -> nat -> reply)
    (input_text : string) :
  run net (Front.analyze_accessibility parse list_of_set input_text)
  = if String.eqb (Str.strip input_text) ""
    then inl (Plain "Please provide a URL or HTML content to analyze.",
              Said "Ready to analyze...", 0)
    else
      match run net (fetch_html_content input_text) with
      | inr e => inr e
      | inl (None, source_type) =>
          inl (Plain ("Error: " +:+ source_type), Said "Error occurred", 0)
      | inl (Some html, source_type) =>
          match parse html with
          | inr e =>
              inl (Plain ("Error parsing HTML: " +:+ e), Said "Parsing error", 0)
          | inl soup =>
              inl (Pieces (analyze_accessibility list_of_set soup
                             (Front.source_of source_type)).1.1,
                   Checked (analyze_accessibility list_of_set soup
                              (Front.source_of source_type)).1.2,
                   length (all_issues soup))
          end
      end.
Proof.
  unfold Front.analyze_accessibility.
  destruct (String.eqb (Str.strip input_text) ""); [done|].
  rewrite run_bind.
  destruct (run net (fetch_html_content input_text)) as [[[html|] st]|e];
    [|done..].
  destruct (parse html) as [soup|e]; [|done].
  pose proof (core_count list_of_set soup (Front.source_of st)) as Hc.
  destruct (analyze_accessibility list_of_set soup (Front.source_of st))
    as [[r' s'] n']. cbn [run fst snd] in *. by rewrite Hc.
Qed.

(** A page with one image without [alt], served with status 200: one
    issue; and the same input when the request raises an exception that
    the fetch does not catch. *)
Example front_outcome_values :
  (exists r s,
     run (serves image_page)
         (Front.analyze_accessibility (parses image_page image_tree)
            remove_dups "https://example.com")
     = inl (Pieces r, Checked s, 1))
  /\ run (fun _ _ _ => OtherException "Failed to parse")
         (Front.analyze_accessibility (parses image_page image_tree)
            remove_dups "https://example.com")
     = inr "Failed to parse".
Proof. split; [eexists _, _|]; vm_compute; reflexivity. Qed.

(** ** The alt-text checker, further *)

Lemma length_enumerate {A : Type} (xs : list A) (k : nat) :
  length (enumerate xs k) = length xs.
Proof. revert k. induction xs as [|x xs IH]; intros k; cbn; [done | by rewrite IH]. Qed.

Lemma Forall_enumerate {A : Type} (P : A -> Prop) (xs : list A) (k : nat) :
  Forall (fun it => P it.2) (enumerate xs k) <-> Forall P xs.
Proof.
  revert k. induction xs as [|x xs IH]; intros k; cbn.
  - split; constructor.
  - rewrite !Forall_cons, IH. done.
Qed.

Lemma flat_map_nil_iff {A B : Type} (f : A -> list B) (xs : list A) :
  List.flat_map f xs = [] <-> Forall (fun x => f x = []) xs.
Proof.
  induction xs as [|x xs IH]; cbn.
  - split; [constructor | done].
  - rewrite Forall_cons, <- IH. split.
    + intros H. by apply app_eq_nil in H.
    + by intros [-> ->].
Qed.

Lemma alt_step_nil_iff (i : nat) (img : node) :
  alt_step [] (i, img) = [] <-> descriptive_alt img.
Proof.
  unfold alt_step, descriptive_alt.
  destruct (Soup.get img "alt") as [a|].
  - destruct (String.eqb_spec (Str.strip a) "") as [He|He].
    + split; [done | intros (a' & [= <-] & Hne & _); done].
    + destruct (Str.mem _ _) eqn:Hm.
      * split; [done|]. intros (a' & [= <-] & _ & Hg).
        by apply mem_true_iff in Hm.
      * split; [|done]. intros _. exists a. repeat split; [done|].
        intros Hin. apply mem_true_iff in Hin. congruence.
  - split; [done | by intros (a & [=] & _)].
Qed.

(** X5. For a document with images, the alt-text checker gives neither
    issue nor suggestion exactly when every image has an [alt] text that
    is neither blank nor one of the generic words. *)
Theorem alt_clean_iff (soup : node) :
  images soup <> [] ->
  (check_alt_text soup = ([], []) <-> Forall descriptive_alt (images soup)).
Proof.
  unfold images. rewrite check_alt_text_eq.
  destruct (Soup.find_all _ soup) as [|img0 rest]; [done|]. intros _.
  cbv beta iota zeta.
  rewrite <- (Forall_enumerate descriptive_alt (img0 :: rest) 1).
  set (its := enumerate (img0 :: rest) 1).
  assert (Forall (fun it => descriptive_alt it.2) its
          <-> List.flat_map (alt_step []) its = []) as ->.
  { rewrite flat_map_nil_iff. apply Forall_iff. intros [i img].
    symmetry. apply alt_step_nil_iff. }
  split.
  - by intros [= H _].
  - by intros ->.
Qed.

Lemma alt_clean_iff_witness :
  images image_tree <> []
  /\ (check_alt_text image_tree = ([], [])
      <-> Forall descriptive_alt (images image_tree)).
Proof.
  assert (images image_tree <> []) as Hne by (vm_compute; discriminate).
  split; [exact Hne | exact (alt_clean_iff image_tree Hne)].
Defined.

Lemma strip_blank (s : string) :
  all_chars Str.isspace s = true -> Str.strip s = "".
Proof.
  unfold Str.strip. induction s as [|c s IH]; cbn; [done|].
  intros [Hc Hs]%andb_true_iff. rewrite Hc. by apply IH.
Qed.

(** X6. An [alt] attribute that holds nothing but white space is
    reported as Empty Alt Text, like an empty one. *)
Theorem blank_alt_is_empty (i : nat) (img : node) (a : string) :
  Soup.get img "alt" = Some a ->
  all_chars Str.isspace a = true ->
  alt_step [] (i, img)
  = [ Issue "Empty Alt Text" ("Image " +:+ Str.of_nat i)
        (EmptyAltText (default "Unknown source" (Soup.get img "src")))
        "Medium" "WCAG 2.1 Level A - 1.1.1" ].
Proof.
  intros Ha Hs. unfold alt_step. rewrite Ha.
  by rewrite (strip_blank a Hs).
Qed.

Lemma blank_alt_is_empty_witness :
  Soup.get (tag_with "img" [("alt", "   ")] []) "alt" = Some "   "
  /\ all_chars Str.isspace "   " = true
  /\ alt_step [] (1, tag_with "img" [("alt", "   ")] [])
     = [ Issue "Empty Alt Text" ("Image " +:+ Str.of_nat 1)
           (EmptyAltText
              (default "Unknown source"
                 (Soup.get (tag_with "img" [("alt", "   ")] []) "src")))
           "Medium" "WCAG 2.1 Level A - 1.1.1" ].
Proof.
  assert (Soup.get (tag_with "img" [("alt", "   ")] []) "alt" = Some "   ")
    as Ha by (vm_compute; reflexivity).
  assert (all_chars Str.isspace "   " = true) as Hs by reflexivity.
  repeat (split; [assumption|]).
  exact (blank_alt_is_empty 1 _ "   " Ha Hs).
Defined.

(** ** The font-size checker, further *)

Lemma span_all (p : ascii -> bool) (s a b : string) :
  Re.span p s = (a, b) -> all_chars p a = true /\ s = a +:+ b.
Proof.
  revert a b. induction s as [|c s IH]; intros a b; cbn [Re.span].
  - by intros [= <- <-].
  - destruct (p c) eqn:Hc; [|by intros [= <- <-]].
    destruct (Re.span p s) as [a' b'].
    intros [= <- <-]. destruct (IH a' b' eq_refl) as [Ha Hs].
    cbn [all_chars]. rewrite Hc, Ha, append_cons. by rewrite <- Hs.
Qed.

(** X7. Whatever the font-size pattern matches, its first group is a run
    of digits, or two runs of digits around a point, so that its
    conversion to a number is defined, and its second group is a unit
    that the conversion to pixels knows: the branch that skips an
    element with an unknown unit is never taken. *)
Theorem font_size_groups (style m t : string) :
  Re.search_font_size style = Some (m, t) ->
  (is_digits m
   \/ exists ip fp, m = ip +:+ "." +:+ fp /\ is_digits ip /\ is_digits fp)
  /\ pixel_size_of (Float.of_decimal m) (Str.lower t) <> None.
Proof.
  intros H. split.
  - apply search_at in H as [s' H]. unfold Re.font_size_at in H.
    destruct (Re.literal _ s') as [[? r0]|]; [|done].
    destruct (Re.span Str.isspace r0) as [? r1].
    destruct (Re.span Str.isdigit r1) as [ip r2] eqn:Hip.
    destruct (String.eqb_spec ip "") as [|Hne]; [done|].
    apply span_all in Hip as [Hip _].
    destruct r2 as [|c r2].
    + destruct (Re.alternation _ _) as [[u ?]|]; [|done].
      injection H as <- _. by left.
    + destruct (Ascii.eqb_spec c ".") as [->|Hc].
      * destruct (Re.span Str.isdigit r2) as [fp r3] eqn:Hfp.
        apply span_all in Hfp as [Hfp _].
        destruct (String.eqb_spec fp "") as [|Hnf].
        -- destruct (Re.alternation _ _) as [[u ?]|]; [|done].
           injection H as <- _. by left.
        -- destruct (Re.alternation _ _) as [[u ?]|]; [|done].
           injection H as <- _. right. by exists ip, fp.
      * assert (forall X : string * string,
                  match c with
                  | "."%char => X
                  | _ => (ip, String c r2)
                  end = (ip, String c r2)) as Hmatch.
        { intros X. by destruct c as [[] [] [] [] [] [] [] []]. }
        rewrite Hmatch in H.
        destruct (Re.alternation _ _) as [[u ?]|]; [|done].
        injection H as <- _. by left.
  - destruct (search_font_size_unit _ _ _ H) as [u Hu].
    by rewrite pixel_size_of_unit, Hu.
Qed.

Lemma font_size_groups_witness :
  Re.search_font_size "margin: 0; font-size: 10.5PT" = Some ("10.5", "PT")
  /\ (is_digits "10.5"
      \/ exists ip fp, "10.5" = ip +:+ "." +:+ fp /\ is_digits ip /\ is_digits fp)
  /\ pixel_size_of (Float.of_decimal "10.5") (Str.lower "PT") <> None.
Proof.
  assert (Re.search_font_size "margin: 0; font-size: 10.5PT"
          = Some ("10.5", "PT")) as Hs by (vm_compute; reflexivity).
  split; [exact Hs | exact (font_size_groups _ _ _ Hs)].
Defined.

Lemma node_induction (P : node -> Prop) :
  (forall s, P (NavigableString s)) ->
  (forall nm a cs, Forall P cs -> P (Tag nm a cs)) ->
  forall n, P n.
Proof.
  intros Hs Ht. fix IH 1. intros [s|nm a cs]; [apply Hs|].
  apply Ht. induction cs as [|c cs IHcs]; constructor; [apply IH | apply IHcs].
Qed.

Lemma descendants_split (n d : node) :
  d ∈ Soup.descendants n ->
  exists l1 l2, Soup.descendants n = l1 ++ d :: Soup.descendants d ++ l2.
Proof.
  revert d. induction n as [s|nm a cs IH] using node_induction; intros d.
  - cbn. by intros ?%elem_of_nil.
  - cbn [Soup.descendants].
    induction IH as [|c cs Hc _ IHcs]; cbn [List.flat_map].
    + by intros ?%elem_of_nil.
    + rewrite elem_of_app, elem_of_cons. intros [[->|Hd]|Hd].
      * exists [], (List.flat_map (fun c => c :: Soup.descendants c) cs).
        done.
      * destruct (Hc d Hd) as (l1 & l2 & ->).
        exists (c :: l1),
          (l2 ++ List.flat_map (fun c => c :: Soup.descendants c) cs).
        by simplify_list_eq.
      * destruct (IHcs Hd) as (l1 & l2 & ->).
        exists (c :: Soup.descendants c ++ l1), l2.
        by simplify_list_eq.
Qed.

Lemma length_append (a b : string) :
  String.length (a +:+ b) = String.length a + String.length b.
Proof.
  induction a as [|x a IH]; [done|]. rewrite append_cons. cbn. by rewrite IH.
Qed.

Lemma join_app (xs ys : list string) :
  Str.join (xs ++ ys) = Str.join xs +:+ Str.join ys.
Proof.
  unfold Str.join. induction xs as [|x xs IH]; cbn; [done|].
  by rewrite IH, append_assoc.
Qed.

Lemma get_text_descendant (n d : node) :
  d ∈ Soup.descendants n ->
  Str.len (Soup.get_text_strip d) <= Str.len (Soup.get_text_strip n).
Proof.
  intros Hd. destruct (descendants_split n d Hd) as (l1 & l2 & Hn).
  unfold Soup.get_text_strip, Str.len. rewrite Hn.
  rewrite List.flat_map_app. cbn [List.flat_map].
  rewrite List.flat_map_app, !join_app, !length_append. lia.
Qed.

Lemma filter_keeps_two {A : Type} (p : A -> bool) (l1 l2 l3 : list A)
    (x y : A) :
  p x = true -> p y = true ->
  exists k1 k2 k3,
    List.filter p (l1 ++ x :: l2 ++ y :: l3) = k1 ++ x :: k2 ++ y :: k3.
Proof.
  intros Hx Hy.
  exists (List.filter p l1), (List.filter p l2), (List.filter p l3).
  rewrite List.filter_app. cbn [List.filter]. rewrite Hx.
  rewrite List.filter_app. cbn [List.filter]. by rewrite Hy.
Qed.

(** X8. In the long-text check of [check_font_sizes], a long text
    element that stands inside another text element (p, div, span, li,
    td, th) makes that one long as well, since the text of the outer
    element holds the text of the inner one.  Both are counted: the
    count is 2 at least, and the one issue names it. *)
Theorem long_inside_long (soup n d : node) :
  n ∈ Soup.find_all (Soup.named text_kinds) soup ->
  d ∈ Soup.find_all (Soup.named text_kinds) n ->
  is_long d = true ->
  is_long n = true
  /\ 2 <= long_text_count soup
  /\ of_kind LongTextBlock (check_font_sizes soup).1
     = [ Issue "Long Text Blocks"
           (Str.of_nat (long_text_count soup) +:+ " elements")
           (LongTextBlocks (long_text_count soup))
           "Low" "WCAG 2.1 Level AAA - 2.4.8" ].
Proof.
  unfold Soup.find_all. intros Hn Hd Hl.
  apply list_elem_of_In, List.filter_In in Hn as [Hn Hnk].
  apply list_elem_of_In, List.filter_In in Hd as [Hd Hdk].
  apply list_elem_of_In in Hn, Hd.
  assert (is_long n = true) as Hln.
  { pose proof (get_text_descendant n d Hd) as Hle. unfold is_long in *.
    apply Nat.ltb_lt in Hl. apply Nat.ltb_lt. lia. }
  assert (2 <= long_text_count soup) as Htwo.
  { destruct (descendants_split soup n Hn) as (l1 & l2 & Hs).
    destruct (descendants_split n d Hd) as (l1' & l2' & Hs').
    unfold long_text_count, Soup.find_all. rewrite Hs, Hs'.
    rewrite <- !app_assoc, <- app_comm_cons, <- app_assoc.
    destruct (filter_keeps_two
                (fun n0 => Soup.is_tag n0 && Soup.named text_kinds n0)
                l1 l1' (Soup.descendants d ++ l2' ++ l2) n d Hnk Hdk)
      as (k1 & k2 & k3 & ->).
    destruct (filter_keeps_two
                (fun el => (500 <? Str.len (Soup.get_text_strip el))%nat)
                k1 k2 k3 n d Hln Hl) as (j1 & j2 & j3 & ->).
    rewrite !length_app. cbn [length]. rewrite !length_app. cbn [length]. lia. }
  repeat split; [done..|].
  rewrite font_long_issues. unfold long_text_rule, long_text_issue.
  destruct (Nat.leb_spec 1 (long_text_count soup)); [done | lia].
Qed.

Lemma long_inside_long_witness :
  long_division ∈ Soup.find_all (Soup.named text_kinds) (document [long_division])
  /\ long_paragraph ∈ Soup.find_all (Soup.named text_kinds) long_division
  /\ is_long long_paragraph = true
  /\ 2 <= long_text_count (document [long_division]).
Proof.
  assert (long_division
            ∈ Soup.find_all (Soup.named text_kinds) (document [long_division]))
    as Hn by (cbn; left).
  assert (long_paragraph ∈ Soup.find_all (Soup.named text_kinds) long_division)
    as Hd by (cbn; left).
  assert (is_long long_paragraph = true) as Hl by (vm_compute; reflexivity).
  repeat (split; [assumption|]).
  exact (proj1 (proj2 (long_inside_long (document [long_division])
                         long_division long_paragraph Hn Hd Hl))).
Defined.

(** ** The colour checker, further *)

Lemma search_here {A : Type} (at_start : string -> option A) (s : string)
    (r : A) :
  at_start s = Some r -> Re.search at_start s = Some r.
Proof. intros H. destruct s; cbn; by rewrite H. Qed.

Lemma search_skip {A : Type} (at_start : string -> option A) (c : ascii)
    (s : string) :
  at_start (String c s) = None ->
  Re.search at_start (String c s) = Re.search at_start s.
Proof. intros H. cbn [Re.search]. by rewrite H. Qed.

Ltac rewrite_lower :=
  repeat match goal with
         | H : Str.lower_char ?a = _ |- context [Str.lower_char ?a] =>
             rewrite H
         end.

(** Where a style starts with a declaration of the background colour,
    the pattern for the text colour finds the same value: none of the
    eleven positions before [color:] starts a match. *)
Lemma color_inside_background (s g : string) :
  Re.declaration_at "background-color:" s = Some g ->
  Re.search_color s = Some g.
Proof.
  intros H. unfold Re.declaration_at in H.
  change "background-color:" with ("background-" +:+ "color:") in H.
  rewrite literal_app in H.
  destruct (Re.literal "background-" s) as [[m1 r1]|] eqn:H1; [|done].
  destruct (Re.literal "color:" r1) as [[m2 r2]|] eqn:H2; [|done].
  assert (Re.declaration_at "color:" r1 = Some g) as Hr1
    by (unfold Re.declaration_at; by rewrite H2).
  pose proof (literal_lower _ _ _ _ H1) as Hlow.
  apply literal_split in H1 as ->.
  repeat (destruct m1 as [|? m1]; [discriminate Hlow|];
          cbn [Str.lower] in Hlow; injection Hlow as ? Hlow).
  destruct m1; [|discriminate Hlow]. clear Hlow.
  rewrite !append_cons. change ("" +:+ r1) with r1.
  unfold Re.search_color.
  repeat (rewrite search_skip;
          [|unfold Re.declaration_at; cbn [Re.literal]; rewrite_lower; done]).
  by apply search_here.
Qed.

(** X9. Any style in which the pattern for the background colour finds
    a value gives the pattern for the text colour a value too, so the
    test for both declarations holds for every element that declares a
    background colour, with or without a text colour. *)
Theorem background_satisfies_guard (i : nat) (el : node) (b : string) :
  Re.search_background_color (style_of el) = Some b ->
  exists c,
    Re.search_color (style_of el) = Some c
    /\ block_of contrast_step (i, el)
       = (if is_light (Str.strip c) && is_light (Str.strip b)
             || is_dark (Str.strip c) && is_dark (Str.strip b)
          then [ Issue "Poor Color Contrast" (element_label i el)
                   (InsufficientContrast (Str.strip c) (Str.strip b))
                   "High" "WCAG 2.1 Level AA - 1.4.3" ]
          else []).
Proof.
  intros Hb. destruct (background_match_is_color_match _ _ Hb) as [c Hc].
  exists c. split; [exact Hc|].
  unfold block_of, contrast_step. fold (style_of el). rewrite Hc, Hb.
  by destruct (_ || _).
Qed.

Lemma background_satisfies_guard_witness :
  Re.search_background_color (style_of white_background) = Some "white"
  /\ exists c, Re.search_color (style_of white_background) = Some c.
Proof.
  assert (Re.search_background_color (style_of white_background)
          = Some "white") as Hb by (vm_compute; reflexivity).
  split; [exact Hb|].
  destruct (background_satisfies_guard 1 white_background "white" Hb)
    as (c & Hc & _).
  by exists c.
Defined.

(** X10. An element whose style starts with a declaration of the
    background colour is checked with that colour as its text colour:
    it is reported, with the background named twice, exactly when the
    background matches the light list or the dark list. *)
Theorem background_first_reported (i : nat) (el : node) (g : string) :
  Re.declaration_at "background-color:" (style_of el) = Some g ->
  block_of contrast_step (i, el)
  = (if is_light (Str.strip g) || is_dark (Str.strip g)
     then [ Issue "Poor Color Contrast" (element_label i el)
              (InsufficientContrast (Str.strip g) (Str.strip g))
              "High" "WCAG 2.1 Level AA - 1.4.3" ]
     else []).
Proof.
  intros Hd. unfold block_of, contrast_step. fold (style_of el).
  rewrite (color_inside_background _ _ Hd).
  unfold Re.search_background_color. rewrite (search_here _ _ _ Hd).
  by destruct (is_light (Str.strip g)), (is_dark (Str.strip g)).
Qed.

Lemma background_first_reported_witness :
  Re.declaration_at "background-color:" (style_of white_background)
    = Some "white"
  /\ block_of contrast_step (1, white_background)
     = [ Issue "Poor Color Contrast" "Element 1 (div)"
           (InsufficientContrast "white" "white")
           "High" "WCAG 2.1 Level AA - 1.4.3" ].
Proof.
  assert (Re.declaration_at "background-color:" (style_of white_background)
          = Some "white") as Hd by (vm_compute; reflexivity).
  split; [exact Hd|].
  exact (background_first_reported 1 white_background "white" Hd).
Defined.

Lemma lower_append (a b : string) :
  Str.lower (a +:+ b) = Str.lower a +:+ Str.lower b.
Proof.
  induction a as [|x a IH]; [done|].
  rewrite append_cons. cbn [Str.lower]. by rewrite IH, append_cons.
Qed.

Lemma contains_within (x c p r : string) :
  Str.contains x c = true -> Str.contains x (p +:+ c +:+ r) = true.
Proof.
  rewrite !contains_iff. intros (p' & r' & ->).
  exists (p +:+ p'), (r' +:+ r). by rewrite !append_assoc.
Qed.

Lemma matches_within (tokens : list string) (c p r : string) :
  existsb (fun t => Str.contains t (Str.lower c)) tokens = true ->
  existsb (fun t => Str.contains t (Str.lower (p +:+ c +:+ r))) tokens = true.
Proof.
  rewrite !existsb_exists. intros (t & Ht & Hc). exists t. split; [done|].
  rewrite !lower_append. by apply contains_within.
Qed.

(** X11. A colour value that holds a value of the light list inside it
    matches the light list as well, and likewise for the dark list:
    what stands before and after the listed text does not matter. *)
Theorem classification_by_containment (c p r : string) :
  (is_light c = true -> is_light (p +:+ c +:+ r) = true)
  /\ (is_dark c = true -> is_dark (p +:+ c +:+ r) = true).
Proof. split; apply matches_within. Qed.

Lemma classification_by_containment_witness :
  is_dark "#000" = true /\ is_dark ("" +:+ "#000" +:+ "0ff") = true.
Proof.
  assert (is_dark "#000" = true) as Hd by reflexivity.
  split; [exact Hd|].
  exact (proj2 (classification_by_containment "#000" "" "0ff") Hd).
Defined.

(** ** All issues of a document *)

Lemma flat_map_length_le {A B : Type} (f : A -> list B) (xs : list A) :
  (forall x, length (f x) <= 1) ->
  length (List.flat_map f xs) <= length xs.
Proof.
  intros Hf. induction xs as [|x xs IH]; cbn; [lia|].
  rewrite length_app. specialize (Hf x). lia.
Qed.

Lemma alt_step_length (it : nat * node) : length (alt_step [] it) <= 1.
Proof.
  destruct it as [i img]. unfold alt_step.
  destruct (Soup.get img "alt"); [|cbn; lia].
  destruct (String.eqb _ _); [cbn; lia|].
  destruct (Str.mem _ _); cbn; lia.
Qed.

Lemma small_font_rule_length (it : nat * node) :
  length (small_font_rule it) <= 1.
Proof.
  destruct it as [i el]. unfold small_font_rule.
  destruct (Re.search_font_size _) as [[m t]|]; [|cbn; lia].
  destruct (unit_of_text _); [|cbn; lia].
  destruct (Float.ltb _ _); cbn; lia.
Qed.

Lemma contrast_block_length (it : nat * node) :
  length (block_of contrast_step it) <= 1.
Proof.
  destruct it as [i el]. unfold block_of, contrast_step.
  destruct (Re.search_color _); [|cbn; lia].
  destruct (Re.search_background_color _); [|cbn; lia].
  match goal with |- context [if ?c then _ else _] => destruct c end;
    cbn; lia.
Qed.

(** X12. A document has at most one issue for each image, two for each
    element with a style attribute, and two more. *)
Theorem issue_count_bound (soup : node) :
  length (all_issues soup)
  <= length (images soup) + 2 * length (styled soup) + 2.
Proof.
  unfold all_issues, images.
  rewrite check_alt_text_eq, check_font_sizes_eq, check_color_contrast_eq.
  cbn [fst]. rewrite !length_app.
  pose proof (flat_map_length_le small_font_rule (styled soup)
                small_font_rule_length) as Hf.
  pose proof (flat_map_length_le (block_of contrast_step) (styled soup)
                contrast_block_length) as Hc.
  assert (length (long_text_rule soup) <= 1) as Hl
    by (unfold long_text_rule; destruct (1 <=? _)%nat; cbn; lia).
  assert (forall X : list issue,
            length (if (5 <? color_count soup)%nat then X else [])
            <= length X) as Hd
    by (intros X; destruct (5 <? _)%nat; cbn; lia).
  specialize (Hd [ Issue "Color Dependency"
                     (Str.of_nat (color_count soup) +:+ " elements")
                     HeavyRelianceOnColor "Medium" "WCAG 2.1 Level A - 1.4.1" ]).
  cbn [length] in Hd.
  destruct (Soup.find_all (Soup.named ["img"]) soup) as [|img rest] eqn:Hi.
  - cbn [fst length]. lia.
  - cbn [fst].
    pose proof (flat_map_length_le (alt_step []) (enumerate (img :: rest) 1)
                  alt_step_length) as Ha.
    rewrite length_enumerate in Ha. lia.
Qed.

Ltac in_table := apply (bool_decide_unpack _); vm_compute; exact I.

Lemma alt_step_rows (it : nat * node) :
  Forall (fun x => row x ∈ issue_table) (alt_step [] it).
Proof.
  destruct it as [i img]. unfold alt_step.
  destruct (Soup.get img "alt"); [|constructor; [in_table | constructor]].
  destruct (String.eqb _ _); [constructor; [in_table | constructor]|].
  destruct (Str.mem _ _); [constructor; [in_table | constructor] | constructor].
Qed.

Lemma small_font_rule_rows (it : nat * node) :
  Forall (fun x => row x ∈ issue_table) (small_font_rule it).
Proof.
  destruct it as [i el]. unfold small_font_rule.
  destruct (Re.search_font_size _) as [[m t]|]; [|constructor].
  destruct (unit_of_text _); [|constructor].
  destruct (Float.ltb _ _); [constructor; [in_table | constructor] | constructor].
Qed.

Lemma contrast_block_rows (it : nat * node) :
  Forall (fun x => row x ∈ issue_table) (block_of contrast_step it).
Proof.
  destruct it as [i el]. unfold block_of, contrast_step.
  destruct (Re.search_color _); [|constructor].
  destruct (Re.search_background_color _); [|constructor].
  match goal with |- context [if ?c then _ else _] => destruct c end;
    [constructor; [in_table | constructor] | constructor].
Qed.

(** X13. Every issue of every document has its type, severity and
    guideline from one of seven rows, and no two rows have the same
    type: the type of an issue fixes its severity and its guideline. *)
Theorem issue_rows (soup : node) :
  Forall (fun x => row x ∈ issue_table) (all_issues soup)
  /\ NoDup (map (fun r => r.1.1) issue_table).
Proof.
  split; [|in_table].
  unfold all_issues.
  rewrite check_alt_text_eq, check_font_sizes_eq, check_color_contrast_eq.
  repeat apply Forall_app_2.
  - destruct (Soup.find_all _ soup); [constructor|]. cbn [fst].
    apply Forall_flat_map, alt_step_rows.
  - apply Forall_flat_map, small_font_rule_rows.
  - unfold long_text_rule.
    destruct (1 <=? _)%nat; [constructor; [in_table | constructor] | constructor].
  - apply Forall_flat_map, contrast_block_rows.
  - destruct (5 <? _)%nat; [constructor; [in_table | constructor] | constructor].
Qed.

(** ** The report, further *)

Lemma titles_entries (xs : list issue) :
  length (List.filter is_title (List.flat_map entry xs)) = length xs.
Proof. induction xs as [|x xs IH]; cbn; [done | by rewrite IH]. Qed.

Lemma titles_section (heading : piece) (xs : list issue) :
  is_title heading = false ->
  length (List.filter is_title (severity_section heading xs)) = length xs.
Proof.
  intros Hh. destruct xs as [|x xs]; [done|].
  unfold severity_section. cbn [List.filter]. rewrite Hh.
  apply titles_entries.
Qed.

Lemma titles_actions (suggestions : list string) :
  List.filter is_title (actions suggestions) = [].
Proof.
  destruct suggestions as [|s l]; [done|]. unfold actions. cbn [List.filter is_title].
  generalize (enumerate (s :: l) 1). intros its.
  induction its as [|[i x] its IH]; [done | exact IH].
Qed.

Lemma titles_bullets (suggestions : list string) :
  List.filter is_title (map Bullet suggestions) = [].
Proof. induction suggestions as [|s l IH]; [done | exact IH]. Qed.

(** X14. The report shows every issue once: it has as many issue titles
    as the document has issues, which is also the count returned; and
    the status is that of a check without findings exactly when there
    is no issue. *)
Theorem report_lists_every_issue (list_of_set : list string -> list string)
    (soup : node) (source_type : source) :
  length (List.filter is_title
            (analyze_accessibility list_of_set soup source_type).1.1)
    = length (all_issues soup)
  /\ (analyze_accessibility list_of_set soup source_type).2
     = length (all_issues soup)
  /\ ((analyze_accessibility list_of_set soup source_type).1.2
        = CompletedSuccessfully
      <-> all_issues soup = []).
Proof.
  split; [|split; [apply core_count|]].
  - pose proof (with_severity_partition _ (all_issues_severity soup)) as Hp.
    apply Permutation_length in Hp. rewrite !length_app in Hp.
    unfold analyze_accessibility.
    destruct (all_issues soup) as [|x xs] eqn:Hall.
    + cbn [fst]. rewrite fold_bullets, List.filter_app, titles_bullets. done.
    + cbn [fst]. rewrite actions_eq, !section_eq.
      rewrite !List.filter_app, !length_app, titles_actions.
      rewrite !titles_section by done. cbn [List.filter is_title].
      cbn [length] in *. lia.
  - unfold analyze_accessibility.
    by destruct (all_issues soup) as [|x xs].
Qed.

Lemma merged_suggestions_fixed (soup : node) :
  exists K,
    (forall x, x ∈ merged_suggestions soup -> x ∈ K)
    /\ (forall x, x ∈ K -> x ∈ no_images_suggestion :: issue_suggestions)
    /\ length K <= 12.
Proof.
  exists ((match images soup with
           | [] => [no_images_suggestion]
           | _ :: _ => alt_suggestions
           end)
          ++ small_font_suggestions ++ [long_text_suggestion]
          ++ contrast_suggestions ++ [color_only_suggestion]).
  split; [|split].
  - unfold merged_suggestions, images.
    rewrite check_alt_text_eq, check_font_sizes_eq, check_color_contrast_eq.
    intros x. rewrite !elem_of_app.
    destruct (Soup.find_all _ soup) as [|img rest]; cbn [fst snd].
    + destruct (nonempty (List.flat_map small_font_rule _)),
        (1 <=? long_text_count soup)%nat,
        (nonempty (List.flat_map (block_of contrast_step) _)),
        (5 <? color_count soup)%nat;
        rewrite ?elem_of_app, ?elem_of_nil; tauto.
    + destruct (nonempty (List.flat_map (alt_step []) _)),
        (nonempty (List.flat_map small_font_rule _)),
        (1 <=? long_text_count soup)%nat,
        (nonempty (List.flat_map (block_of contrast_step) _)),
        (5 <? color_count soup)%nat;
        rewrite ?elem_of_app, ?elem_of_nil; tauto.
  - intros x. unfold issue_suggestions. rewrite elem_of_cons, !elem_of_app.
    destruct (images soup); rewrite ?list_elem_of_singleton; tauto.
  - destruct (images soup); cbn; lia.
Qed.

(** X15. The suggestions of the aggregator are taken from thirteen
    fixed texts, and there are never more than twelve of them. *)
Theorem suggestions_are_fixed (list_of_set : list string -> list string)
    (soup : node) :
  (forall xs, lists_set xs (list_of_set xs)) ->
  Forall (fun s => s ∈ no_images_suggestion :: issue_suggestions)
         (all_suggestions list_of_set soup)
  /\ length (all_suggestions list_of_set soup) <= 12.
Proof.
  intros Hset. destruct (Hset (merged_suggestions soup)) as [Hnd Hin].
  change (list_of_set (merged_suggestions soup))
    with (all_suggestions list_of_set soup) in Hnd, Hin.
  destruct (merged_suggestions_fixed soup) as (K & HmK & HK & Hlen).
  split.
  - apply Forall_forall. intros s Hs. apply HK, HmK, Hin, Hs.
  - etrans; [|exact Hlen]. apply submseteq_length, NoDup_submseteq; [done|].
    intros s Hs. apply HmK, Hin, Hs.
Qed.

Lemma suggestions_are_fixed_witness :
  (forall xs, lists_set xs (remove_dups xs))
  /\ length (all_suggestions remove_dups scenario) <= 12.
Proof.
  split; [exact lists_set_remove_dups|].
  exact (proj2 (suggestions_are_fixed remove_dups scenario
                  lists_set_remove_dups)).
Defined.

(** X16. For a document without any issue, the narrative shows one
    suggestion, the one about adding images, when the document has no
    image, and no suggestion when it has images: the limit of three
    suggestions never leaves one out. *)
Theorem clean_document_report (list_of_set : list string -> list string)
    (soup : node) (source_type : source) :
  (forall xs, lists_set xs (list_of_set xs)) ->
  all_issues soup = [] ->
  analyze_accessibility list_of_set soup source_type
  = ([GreatNews; BestPractices]
       ++ match images soup with
          | [] => [Bullet no_images_suggestion]
          | _ :: _ => []
          end,
     CompletedSuccessfully, 0).
Proof.
  intros Hset Hall.
  assert (merged_suggestions soup
          = match images soup with
            | [] => [no_images_suggestion]
            | _ :: _ => []
            end) as Hm.
  { destruct (no_issues_suggestions soup Hall) as [Hm|Hm]; rewrite Hm.
    - unfold merged_suggestions, images in *.
      rewrite check_alt_text_eq in Hm.
      by destruct (Soup.find_all _ soup).
    - unfold merged_suggestions, all_issues, images in *.
      rewrite check_alt_text_eq in Hm, Hall.
      destruct (Soup.find_all _ soup) as [|img rest]; [done|].
      cbn [fst snd] in *. apply app_eq_nil in Hall as [Ha _].
      rewrite Ha in Hm. cbn [nonempty app] in Hm.
      rewrite check_font_sizes_eq, check_color_contrast_eq in Hm.
      cbn [snd] in Hm. exfalso. revert Hm.
      destruct (nonempty (List.flat_map small_font_rule _)),
        (1 <=? long_text_count soup)%nat,
        (nonempty (List.flat_map (block_of contrast_step) _)),
        (5 <? color_count soup)%nat; by vm_compute. }
  unfold analyze_accessibility. rewrite Hall. rewrite fold_bullets.
  cbn [length app]. do 2 f_equal.
  change (all_suggestions list_of_set soup)
    with (list_of_set (merged_suggestions soup)).
  generalize (Hset (merged_suggestions soup)). rewrite Hm.
  destruct (images soup).
  - by intros ->%lists_set_singleton.
  - by intros ->%lists_set_nil.
Qed.

Lemma clean_document_report_witness :
  (forall xs, lists_set xs (remove_dups xs))
  /\ all_issues (document [tag_with "img" [("alt", "A cat on a mat")] []]) = []
  /\ analyze_accessibility remove_dups
       (document [tag_with "img" [("alt", "A cat on a mat")] []]) raw_html
     = ([GreatNews; BestPractices], CompletedSuccessfully, 0).
Proof.
  split; [exact lists_set_remove_dups|].
  assert (all_issues (document [tag_with "img" [("alt", "A cat on a mat")] []])
          = []) as Hall by (vm_compute; reflexivity).
  split; [exact Hall|].
  exact (clean_document_report remove_dups _ raw_html
           lists_set_remove_dups Hall).
Defined.

(** ** Requests *)

Lemma calls_bind {A B : Type}
    (net : string -> list (string * string) -> nat -> reply)
    (m : io A) (f : A -> io B) :
  calls net (bind m f)
  = calls net m
    ++ match run net m with
       | inl a => calls net (f a)
       | inr _ => []
       end.
Proof.
  induction m as [a|a h t k IH|e]; cbn; [done | by rewrite IH | done].
Qed.

(** X17. Against any network, the analysis of an input makes one
    request at most, and none for a blank input or for markup: it
    requests the stripped input when that starts with [http://] or
    [https://], and [https://] followed by it when it starts with
    [www.]; it never asks twice, whatever the answer. *)
Theorem front_single_request (parse : string -> node + string)
    (list_of_set : list string -> list string)
    (net : string -> list (string * string) -> nat -> reply)
    (input_text : string) :
  calls net (Front.analyze_accessibility parse list_of_set input_text)
  = if negb (is_markup input_text)
       && startswith_any ["http://"; "https://"; "www."] (Str.strip input_text)
    then [ if String.prefix "www." (Str.strip input_text)
           then "https://" +:+ Str.strip input_text
           else Str.strip input_text ]
    else [].
Proof.
  unfold Front.analyze_accessibility, is_markup.
  destruct (String.eqb_spec (Str.strip input_text) "") as [He|Hne].
  { by rewrite He. }
  rewrite calls_bind.
  assert (forall x : option string * string,
            calls net
              (let '(html_content, source_type) := x in
               match html_content with
               | Some html_content0 =>
                   match parse html_content0 with
                   | inl soup =>
                       let '(report, s, n) :=
                         analyze_accessibility list_of_set soup
                           (Front.source_of source_type) in
                       Ret (Pieces report, Checked s, n)
                   | inr e =>
                       Ret (Plain ("Error parsing HTML: " +:+ e),
                            Said "Parsing error", 0)
                   end
               | None =>
                   Ret (Plain ("Error: " +:+ source_type),
                        Said "Error occurred", 0)
               end) = []) as Hk.
  { intros [[html|] st]; [|done].
    destruct (parse html) as [soup|e]; [|done].
    by destruct (analyze_accessibility _ _ _) as [[r s] n]. }
  assert (forall x : list string,
            x ++ match run net (fetch_html_content input_text) with
                 | inl a =>
                     calls net
                       (let '(html_content, source_type) := a in
                        match html_content with
                        | Some html_content0 =>
                            match parse html_content0 with
                            | inl soup =>
                                let '(report, s, n) :=
                                  analyze_accessibility list_of_set soup
                                    (Front.source_of source_type) in
                                Ret (Pieces report, Checked s, n)
                            | inr e =>
                                Ret (Plain ("Error parsing HTML: " +:+ e),
                                     Said "Parsing error", 0)
                            end
                        | None =>
                            Ret (Plain ("Error: " +:+ source_type),
                                 Said "Error occurred", 0)
                        end)
                 | inr _ => []
                 end = x) as ->.
  { intros x. destruct (run net _) as [a|e]; by rewrite ?Hk, app_nil_r. }
  unfold fetch_html_content.
  destruct (String.prefix "<" _ && Str.contains ">" _); [done|].
  destruct (startswith_any _ _); [|done]. cbn [negb andb calls].
  f_equal.
  match goal with
  | |- context [net ?a ?h ?t] => destruct (net a h t) as [code text|e|e]
  end; [by destruct (code =? 200)%nat | done..].
Qed.
